(** * Agent memory store: file backend, graph backend and facade

    A shallow embedding of [scripts/backends.py] and [scripts/memory.py].

    Conventions of the embedding:
    - a Python [str] is a [string] of 8-bit characters; the case and
      whitespace methods are Python's, restricted to ASCII text;
    - a Python [int] is a [Z]; slices follow Python's rules for negative
      bounds;
    - [Memory] objects and the [list] objects that hold them live in a heap
      and are passed by reference, so that aliasing is visible;
    - values have the types the code declares for them: the fields of a
      [Memory] are strings and a dictionary of JSON values, and what is
      handed to the graph engine are strings.  Where Python would go on
      with a value of another type, the result is marked [OutOfModel];
    - an exception is a value of [exn] carried by [outcome];
    - a write to the file succeeds; what a read can meet is a
      [file_state];
    - the clock is read by [datetime.now().isoformat()]; each reading is
      an argument of the function that takes it. *)

From Stdlib Require Import ZArith Ascii String List Lia Bool DecimalString Sorted.
From stdpp Require Import base option list strings gmap.

Set Warnings "-register-all".
Local Open Scope Z_scope.

(** ** Python strings *)

Module Str.

Definition ord (c : ascii) : N := N_of_ascii c.

(** [c.isupper()] for one ASCII character. *)
Definition isupper (c : ascii) : bool :=
  ((65 <=? ord c) && (ord c <=? 90))%N.

Definition lower_char (c : ascii) : ascii :=
  if isupper c then ascii_of_N (ord c + 32) else c.

(** [s.lower()] *)
Fixpoint lower (s : string) : string :=
  match s with
  | EmptyString => EmptyString
  | String c s' => String (lower_char c) (lower s')
  end.

(** The characters [str.split()] treats as separators: tab, line feed,
    vertical tab, form feed, carriage return, the four information
    separators and space. *)
Definition isspace (c : ascii) : bool :=
  (((9 <=? ord c) && (ord c <=? 13)) || ((28 <=? ord c) && (ord c <=? 32)))%N.

(** [s.startswith(p)] *)
Fixpoint startswith (s p : string) : bool :=
  match p, s with
  | EmptyString, _ => true
  | String a p', String b s' => if decide (a = b) then startswith s' p' else false
  | String _ _, EmptyString => false
  end.

(** [p in s] *)
Fixpoint contains (s p : string) : bool :=
  startswith s p ||
  match s with
  | EmptyString => false
  | String _ s' => contains s' p
  end.

(** [c in chars] for a one-character [c]. *)
Fixpoint mem (c : ascii) (chars : string) : bool :=
  match chars with
  | EmptyString => false
  | String a r => if decide (a = c) then true else mem c r
  end.

Fixpoint lstrip (chars s : string) : string :=
  match s with
  | EmptyString => EmptyString
  | String c s' => if mem c chars then lstrip chars s' else s
  end.

Fixpoint rstrip (chars s : string) : string :=
  match s with
  | EmptyString => EmptyString
  | String c s' =>
      match rstrip chars s' with
      | EmptyString => if mem c chars then EmptyString else String c EmptyString
      | r => String c r
      end
  end.

(** [s.strip(chars)] *)
Definition strip (chars s : string) : string := rstrip chars (lstrip chars s).

(** [s.split()]: the maximal runs of non-separator characters, in order.
    [cur] is the run being read, reversed. *)
Fixpoint split_go (cur : string) (s : string) : list string :=
  match s with
  | EmptyString =>
      match cur with EmptyString => [] | _ => [String.rev cur] end
  | String c s' =>
      if isspace c
      then match cur with
           | EmptyString => split_go EmptyString s'
           | _ => String.rev cur :: split_go EmptyString s'
           end
      else split_go (String c cur) s'
  end.

Definition split (s : string) : list string := split_go EmptyString s.

(** [s.replace(p, e)] for a non-empty [p] and the empty string [e]: every
    occurrence of [p], found
    left to right without overlap, is removed.  [skip] counts the
    characters of the current occurrence still to drop. *)
Fixpoint remove_go (p : string) (skip : nat) (s : string) : string :=
  match s with
  | EmptyString => EmptyString
  | String c s' =>
      match skip with
      | S k => remove_go p k s'
      | O => if startswith s p
             then remove_go p (Nat.pred (String.length p)) s'
             else String c (remove_go p O s')
      end
  end.

Definition remove (p s : string) : string :=
  match p with
  | EmptyString => s
  | _ => remove_go p O s
  end.

(** [s[:n]] for [0 <= n] *)
Definition take (n : nat) (s : string) : string := String.substring 0 n s.

(** [sep.join(parts)] *)
Fixpoint join (sep : string) (parts : list string) : string :=
  match parts with
  | [] => EmptyString
  | [p] => p
  | p :: rest => p +:+ sep +:+ join sep rest
  end.

End Str.

(** ** Python slices *)

Section Slices.
Context {A : Type}.

(** [l[a:]] *)
Definition slice_from (l : list A) (a : Z) : list A :=
  if a <? 0
  then drop (Z.to_nat (Z.max 0 (Z.of_nat (length l) + a))) l
  else drop (Z.to_nat a) l.

(** [l[:b]] *)
Definition slice_to (l : list A) (b : Z) : list A :=
  if b <? 0
  then take (Z.to_nat (Z.max 0 (Z.of_nat (length l) + b))) l
  else take (Z.to_nat b) l.
End Slices.

(** ** JSON values, as [json.load] returns them

    An object keeps its keys in file order, as a Python [dict] does.
    Numbers are the integers; nothing below looks inside a number. *)

Inductive json : Type :=
| JNull
| JBool (b : bool)
| JNum (z : Z)
| JStr (s : string)
| JArr (items : list json)
| JObj (fields : list (string * json)).

(** [d.get(k)] on the fields of an object *)
Fixpoint dict_get {V : Type} (k : string) (d : list (string * V)) : option V :=
  match d with
  | [] => None
  | (k', v) :: r => if decide (k' = k) then Some v else dict_get k r
  end.

(** [k in d] *)
Definition dict_has {V : Type} (k : string) (d : list (string * V)) : bool :=
  match dict_get k d with Some _ => true | None => false end.

(** ** The record type *)

Record Memory : Type := mkMemory {
  id : string;
  content : string;
  category : string;
  created_at : string;
  updated_at : string;
  metadata : list (string * json)
}.

(** [m.category == c] *)
Definition has_category (c : string) (m : Memory) : bool :=
  bool_decide (category m = c).

(** [Memory.to_dict]: [asdict] lists the fields in declaration order. *)
Definition to_dict (m : Memory) : json :=
  JObj [ ("id", JStr (id m));
         ("content", JStr (content m));
         ("category", JStr (category m));
         ("created_at", JStr (created_at m));
         ("updated_at", JStr (updated_at m));
         ("metadata", JObj (metadata m)) ].

(** What [Memory.from_dict(data)], which calls the constructor with the
    entries of [data] as keywords, does with a JSON value:
    - [Decoded m]: the keywords fit the constructor and the values have the
      declared types;
    - [BadCall]: Python raises [TypeError] (the value is no mapping, a key is
      no field, or a field without default is missing);
    - [IllTyped]: the keywords fit but a value is not of the declared type;
      Python then builds an object that is no [Memory] of this model. *)
Inductive decoded : Type :=
| Decoded (m : Memory)
| BadCall
| IllTyped.

Definition field_names : list string :=
  ["id"; "content"; "category"; "created_at"; "updated_at"; "metadata"].

Definition required_names : list string :=
  ["id"; "content"; "category"; "created_at"; "updated_at"].

Definition is_field (k : string) : bool := bool_decide (k ∈ field_names).

Definition from_dict (data : json) : decoded :=
  match data with
  | JObj d =>
      if forallb (λ kv, is_field kv.1) d && forallb (λ k, dict_has k d) required_names
      then
        match dict_get "id" d, dict_get "content" d, dict_get "category" d,
              dict_get "created_at" d, dict_get "updated_at" d with
        | Some (JStr i), Some (JStr c), Some (JStr g), Some (JStr t), Some (JStr u) =>
            match dict_get "metadata" d with
            | None => Decoded (mkMemory i c g t u [])
            | Some (JObj md) => Decoded (mkMemory i c g t u md)
            | Some _ => IllTyped
            end
        | _, _, _, _, _ => IllTyped
        end
      else BadCall
  | _ => BadCall
  end.

(** ** Exceptions and results *)

Inductive exn : Type :=
| TypeError
| UnicodeDecodeError.

(** The result of a call that may raise.  [OutOfModel] stands for a return
    value that holds an [IllTyped] object. *)
Inductive outcome (A : Type) : Type :=
| Returns (a : A)
| Raises (e : exn)
| OutOfModel.
Arguments Returns {A} a.
Arguments Raises {A} e.
Arguments OutOfModel {A}.

(** [[Memory.from_dict(m) for m in items]]: the first [BadCall] raises,
    whatever came before it. *)
Fixpoint decode_all (items : list json) : outcome (list Memory) :=
  match items with
  | [] => Returns []
  | x :: r =>
      match from_dict x with
      | BadCall => Raises TypeError
      | IllTyped =>
          match decode_all r with
          | Raises e => Raises e
          | _ => OutOfModel
          end
      | Decoded m =>
          match decode_all r with
          | Returns ms => Returns (m :: ms)
          | o => o
          end
      end
  end.

Fixpoint chars (s : string) : list json :=
  match s with
  | EmptyString => []
  | String c s' => JStr (String c EmptyString) :: chars s'
  end.

(** [for m in v]: what iterating a JSON value yields, [None] where Python
    raises [TypeError] (the value is not iterable). *)
Definition iterate (v : json) : option (list json) :=
  match v with
  | JArr items => Some items
  | JObj d => Some (map (λ kv, JStr kv.1) d)
  | JStr s => Some (chars s)
  | JNull | JBool _ | JNum _ => None
  end.

(** ** The heap

    A reference is an index; allocation appends. *)

Definition mref := nat.
Definition lref := nat.

Record Heap : Type := mkHeap {
  objs : list Memory;
  lists : list (list mref)
}.

Definition empty_heap : Heap := mkHeap [] [].

Definition new_memory (h : Heap) (m : Memory) : mref * Heap :=
  (length (objs h), mkHeap (objs h ++ [m]) (lists h)).

Definition new_memories (h : Heap) (ms : list Memory) : list mref * Heap :=
  (seq (length (objs h)) (length ms), mkHeap (objs h ++ ms) (lists h)).

Definition new_list (h : Heap) (l : list mref) : lref * Heap :=
  (length (lists h), mkHeap (objs h) (lists h ++ [l])).

Definition set_list (h : Heap) (r : lref) (l : list mref) : Heap :=
  mkHeap (objs h) (<[r := l]> (lists h)).


Arguments new_memory : simpl never.
Arguments new_memories : simpl never.
Arguments new_list : simpl never.

(** The elements of the list object at [r]. *)
Definition items (h : Heap) (r : lref) : list mref :=
  default [] (lists h !! r).

(** The objects a list of references points to. *)
Definition values (h : Heap) (l : list mref) : list Memory :=
  omap (λ r, objs h !! r) l.

(** The records held by the list object at [r]. *)
Definition records (h : Heap) (r : lref) : list Memory :=
  values h (items h r).

(** ** The file backend *)

Module JSONBackend.

(** What is at the path [memory_file], seen through [open] and
    [json.load]. *)
Inductive file_state : Type :=
| Missing        (* [open] raises [FileNotFoundError] *)
| Unreadable     (* [open] or the read raises another [OSError] *)
| Undecodable    (* bytes that are no text: the read raises [UnicodeDecodeError] *)
| Unparsable     (* text that is no JSON: [json.load] raises [JSONDecodeError] *)
| Holds (data : json).

Record t : Type := mk {
  memory_file : file_state;
  _memories : lref
}.

Definition SCHEMA_VERSION : string := "1.0".

Definition envelope (ms : list Memory) : json :=
  JObj [ ("schema_version", JStr SCHEMA_VERSION);
         ("memories", JArr (map to_dict ms)) ].

(** [save]: the list passed in becomes the cache (the same object), and
    the file is rewritten with every record of it.  The file then holds
    the text [json.dump] writes, which [json.load] reads back as the same
    value. *)
Definition save (h : Heap) (self : t) (memories : lref) : Heap * t :=
  (h, mk (Holds (envelope (records h memories))) memories).

(** [return []] *)
Definition return_empty (h : Heap) (self : t) : outcome lref * Heap * t :=
  let '(r, h1) := new_list h [] in (Returns r, h1, self).

Definition load (h : Heap) (self : t) : outcome lref * Heap * t :=
  match memory_file self with
  | Missing => return_empty h self
  | Unreadable => return_empty h self
  | Unparsable => return_empty h self
  | Undecodable => (Raises UnicodeDecodeError, h, self)
  | Holds data =>
      match data with
      | JObj d =>
          if dict_has "schema_version" d
          then
            match iterate (match dict_get "memories" d with
                           | Some v => v
                           | None => JArr []
                           end) with
            | None => (Raises TypeError, h, self)
            | Some memories_data =>
                match decode_all memories_data with
                | Returns ms =>
                    let '(rs, h1) := new_memories h ms in
                    let '(r, h2) := new_list h1 rs in
                    (Returns r, h2, self)
                | Raises e => (Raises e, h, self)
                | OutOfModel => (OutOfModel, h, self)
                end
            end
          else return_empty h self
      | JArr data =>
          match decode_all data with
          | Returns ms =>
              let '(rs, h1) := new_memories h ms in
              let '(memories, h2) := new_list h1 rs in
              let self1 := mk (memory_file self) memories in
              let '(h3, self2) := save h2 self1 memories in
              (Returns memories, h3, self2)
          | Raises e => (Raises e, h, self)
          | OutOfModel => (OutOfModel, h, self)
          end
      | _ => return_empty h self
      end
  end.

Definition _ensure_storage (f : file_state) : file_state :=
  match f with
  | Missing => Holds (envelope [])
  | _ => f
  end.

(** [JSONBackend(memory_dir)] over a directory whose file is in state
    [f]. *)
Definition init (h : Heap) (f : file_state) : outcome t * Heap :=
  let '(r0, h0) := new_list h [] in
  let self := mk (_ensure_storage f) r0 in
  match load h0 self with
  | (Returns r, h1, self1) => (Returns (mk (memory_file self1) r), h1)
  | (Raises e, h1, _) => (Raises e, h1)
  | (OutOfModel, h1, _) => (OutOfModel, h1)
  end.

Definition add (h : Heap) (self : t) (memory : mref) : Heap * t :=
  let h1 := set_list h (_memories self) (items h (_memories self) ++ [memory]) in
  save h1 self (_memories self).

(** [memory.id == memory_id] for the object at [r] *)
Definition has_id (h : Heap) (memory_id : string) (r : mref) : bool :=
  match objs h !! r with
  | Some m => bool_decide (id m = memory_id)
  | None => false
  end.

(** The index at which the loop of [delete] stops. *)
Fixpoint first_index {A : Type} (p : A → bool) (l : list A) : option nat :=
  match l with
  | [] => None
  | x :: l' => if p x then Some O else S <$> first_index p l'
  end.

Definition delete (h : Heap) (self : t) (memory_id : string) : bool * Heap * t :=
  match first_index (has_id h memory_id) (items h (_memories self)) with
  | Some i =>
      let h1 := set_list h (_memories self)
                  (base.delete i (items h (_memories self))) in
      let '(h2, self1) := save h1 self (_memories self) in
      (true, h2, self1)
  | None => (false, h, self)
  end.

(** Truth value of an optional string: [None] and the empty string are
    false. *)
Definition truthy (c : option string) : bool :=
  match c with
  | Some (String _ _) => true
  | _ => false
  end.

(** [category and memory.category != category] *)
Definition skipped (category : option string) (m : Memory) : bool :=
  match category with
  | Some c => truthy category && negb (has_category c m)
  | None => false
  end.

(** The test of the search loop on one record. *)
Definition matches (query_lower : string) (category : option string)
    (m : Memory) : bool :=
  if skipped category m
  then false
  else Str.contains (Str.lower (content m)) query_lower.

Definition keep (h : Heap) (p : Memory → bool) (r : mref) : bool :=
  match objs h !! r with
  | Some m => p m
  | None => false
  end.

Definition search (h : Heap) (self : t) (query : string)
    (category : option string) (limit : Z) : list mref :=
  let query_lower := Str.lower query in
  let results :=
    List.filter (keep h (matches query_lower category)) (items h (_memories self)) in
  slice_to results limit.

Definition get_by_category (h : Heap) (self : t) (category : string) : list mref :=
  List.filter (keep h (has_category category)) (items h (_memories self)).

(** [get_all]: the slice is a new list object. *)
Definition get_all (h : Heap) (self : t) (offset : Z) (limit : option Z)
    : lref * Heap :=
  let memories := slice_from (items h (_memories self)) offset in
  let memories :=
    match limit with
    | Some l => slice_to memories l
    | None => memories
    end in
  new_list h memories.

End JSONBackend.

(** ** The graph backend *)

(** The collaborators of the graph backend that are not part of this
    code: the graph engine, reached through [put], [drop] and the two
    traversals, and [json.dumps].  [inc_all g n p] stands for
    [g.v(n).inc(p).all()], the nodes with a [p] edge into [n];
    [out_all g n p] for [g.v(n).out(p).all()], the nodes [n] has a [p] edge
    to.  Both are read as the code reads them, as a sequence of node
    names. *)
Module Port.

Class GraphPort (G : Type) : Type := {
  put : G → string → string → string → G;
  drop : G → string → string → string → G;
  inc_all : G → string → string → list string;
  out_all : G → string → string → list string;
  dumps : list (string * json) → string
}.

End Port.
Abbreviation GraphPort := Port.GraphPort.

(** [str(i)] for a natural number *)
Definition str_of_nat (n : nat) : string :=
  NilZero.string_of_uint (Nat.to_uint n).

(** [d[k] = v] on a Python [dict]: a present key keeps its place. *)
Fixpoint dict_set {V : Type} (k : string) (v : V) (d : list (string * V))
    : list (string * V) :=
  match d with
  | [] => [(k, v)]
  | (k', v') :: r =>
      if decide (k' = k) then (k, v) :: r else (k', v') :: dict_set k v r
  end.

(** [del d[k]] *)
Fixpoint dict_del {V : Type} (k : string) (d : list (string * V))
    : list (string * V) :=
  match d with
  | [] => []
  | (k', v') :: r =>
      if decide (k' = k) then r else (k', v') :: dict_del k r
  end.

(** [list(d.values())] *)
Definition dict_values {V : Type} (d : list (string * V)) : list V := map snd d.

Module GraphBackend.

(** A backend that has been constructed.  [_init_graph] binds [_graph]
    or raises [ImportError], and nothing assigns it again, so the tests
    [if not self._graph] of the methods take the branch of a bound
    graph. *)
Record t (G : Type) : Type := mk {
  _graph : G;
  _memories_cache : list (string * mref)
}.
Arguments mk {G} _ _.
Arguments _graph {G} _.
Arguments _memories_cache {G} _.

(** The scan of [re.findall] for the pattern: a double quote, one or more
    characters other than a double quote (the group), a double quote.
    Matches are taken left to right and do not overlap.  [open] is
    [None] outside quotes, and [Some acc] after a quote that may open a
    match, [acc] being the text read since, reversed.  A quote directly
    after such a quote cannot close a match and is the next candidate. *)
Fixpoint findall_go (open : option string) (s : string) : list string :=
  match s with
  | EmptyString => []
  | String c s' =>
      if decide (c = "034"%char)
      then match open with
           | Some (String a acc) => String.rev (String a acc) :: findall_go None s'
           | _ => findall_go (Some EmptyString) s'
           end
      else match open with
           | Some acc => findall_go (Some (String c acc)) s'
           | None => findall_go None s'
           end
  end.

Definition findall_quoted (content : string) : list string :=
  findall_go None content.

Definition punctuation : string := ".,!?:;()[]{}".

Definition stoplist : list string :=
  ["the"; "a"; "an"; "this"; "that"; "user"; "i"].

(** The test on a stripped word [clean]. *)
Definition is_entity_word (clean : string) : bool :=
  match clean with
  | EmptyString => false
  | String c _ =>
      Str.isupper c && bool_decide (1 < String.length clean)%nat
      && negb (bool_decide (Str.lower clean ∈ stoplist))
  end.

Definition capitalized (content : string) : list string :=
  List.filter is_entity_word (map (Str.strip punctuation) (Str.split content)).

(** [list(set(entities))]: the order of the result is that of the set. *)
Definition _extract_entities (content : string) : list string :=
  elements (list_to_set (findall_quoted content ++ capitalized content) : gset string).

Fixpoint strings_of (l : list json) : option (list string) :=
  match l with
  | [] => Some []
  | JStr s :: r => (s ::.) <$> strings_of r
  | _ :: _ => None
  end.

(** The steps [add] makes nodes of: what the loop over
    [metadata["steps"]] of a procedural record yields, which is the items
    of a list, the characters of a string or the keys of a dictionary; no
    step for a record of another category or without the key.  [None]
    when the value cannot be iterated, or yields something that is not a
    string. *)
Definition steps_of (m : Memory) : option (list string) :=
  if has_category "procedural" m
  then match dict_get "steps" (metadata m) with
       | None => Some []
       | Some v => iterate v ≫= strings_of
       end
  else Some [].

(** The loop over the steps raises: the record is procedural and the value
    under [metadata["steps"]] cannot be iterated ([enumerate] raises
    [TypeError]). *)
Definition steps_raise (m : Memory) : bool :=
  has_category "procedural" m &&
  match dict_get "steps" (metadata m) with
  | Some v => match iterate v with Some _ => false | None => true end
  | None => false
  end.

Section WithPort.
Context {G : Type} `{!GraphPort G}.

Definition memory_node (memory_id : string) : string := "memory:" +:+ memory_id.
Definition entity_node (key : string) : string := "entity:" +:+ key.

Definition link_entity (node : string) (g : G) (entity : string) : G :=
  let e := entity_node (Str.lower entity) in
  Port.put (Port.put (Port.put g e "type" "entity") e "name" entity) node "MENTIONS" e.

Definition link_step (memory_id node : string) (g : G) (step : nat * string) : G :=
  let step_node := "step:" +:+ memory_id +:+ ":" +:+ str_of_nat step.1 in
  Port.put (Port.put (Port.put (Port.put g step_node "type" "step")
             step_node "content" step.2)
             step_node "order" (str_of_nat step.1))
             node "HAS_STEP" step_node.

(** The facts [add] puts for a record whose steps are [steps]. *)
Definition graph_facts (g : G) (m : Memory) (steps : list string) : G :=
  let node := memory_node (id m) in
  let g := Port.put g node "type" "memory" in
  let g := Port.put g node "id" (id m) in
  let g := Port.put g node "content" (content m) in
  let g := Port.put g node "category" (category m) in
  let g := Port.put g node "created_at" (created_at m) in
  let g := Port.put g node "updated_at" (updated_at m) in
  let g := Port.put g node "metadata" (Port.dumps (metadata m)) in
  let g := Port.put g node "IS_A" ("category:" +:+ category m) in
  let g := foldl (link_entity node) g (_extract_entities (content m)) in
  let g := if has_category "episodic" m
           then Port.put g node "OCCURRED_ON" ("date:" +:+ Str.take 10 (created_at m))
           else g in
  foldl (link_step (id m) node) g (imap (λ i s, (i, s)) steps).

(** [add]: the facts of one record are put into the graph, then the
    record enters the cache under its id.  Where the steps of a procedural
    record cannot be iterated, the loop over them raises [TypeError]: the
    facts put before it stay in the graph and the record does not enter
    the cache; the backend is not followed further after a raise.
    [OutOfModel] where the loop meets a step that is not a string. *)
Definition add_record (self : t G) (memory : mref) (m : Memory) : outcome (t G) :=
  match steps_of m with
  | Some steps =>
      Returns (mk (graph_facts (_graph self) m steps)
                  (dict_set (id m) memory (_memories_cache self)))
  | None => if steps_raise m then Raises TypeError else OutOfModel
  end.

Definition add (h : Heap) (self : t G) (memory : mref) : outcome (t G) :=
  match objs h !! memory with
  | Some m => add_record self memory m
  | None => Returns self
  end.

(** The loop of [save]. *)
Fixpoint add_each (h : Heap) (self : t G) (memories : list mref) : outcome (t G) :=
  match memories with
  | [] => Returns self
  | r :: rest =>
      match add h self r with
      | Returns self1 => add_each h self1 rest
      | o => o
      end
  end.

Definition save (h : Heap) (self : t G) (memories : lref) : outcome (t G) :=
  add_each h (mk (_graph self) []) (items h memories).

Definition load (h : Heap) (self : t G) : lref * Heap :=
  new_list h (dict_values (_memories_cache self)).

Definition delete (h : Heap) (self : t G) (memory_id : string) : bool * t G :=
  match dict_get memory_id (_memories_cache self) with
  | None => (false, self)
  | Some r =>
      let node := memory_node memory_id in
      let g := Port.drop (_graph self) node "type" "memory" in
      let g := match objs h !! r with
               | Some m => Port.drop g node "IS_A" ("category:" +:+ category m)
               | None => g
               end in
      (true, mk g (dict_del memory_id (_memories_cache self)))
  end.

Definition get_all (h : Heap) (self : t G) (offset : Z) (limit : option Z)
    : lref * Heap :=
  let memories := slice_from (dict_values (_memories_cache self)) offset in
  let memories :=
    match limit with
    | Some l => slice_to memories l
    | None => memories
    end in
  new_list h memories.

(** The ids read off the memory nodes among [nodes]:
    the node with every occurrence of ["memory:"] replaced by the empty
    string, for each node that starts with
    ["memory:"]. *)
Definition memory_ids (nodes : list string) : list string :=
  map (Str.remove "memory:")
    (List.filter (λ node, Str.startswith node "memory:") nodes).

(** The ids the first hop of [find_related] collects. *)
Definition direct_ids (g : G) (query : string) : gset string :=
  list_to_set (memory_ids (Port.inc_all g (entity_node (Str.lower query)) "MENTIONS")).

(** The ids the second hop adds for one id of the first. *)
Definition hop_ids (g : G) (mem_id : string) : list string :=
  concat (map (λ ent, memory_ids (Port.inc_all g ent "MENTIONS"))
            (List.filter (λ ent, Str.startswith ent "entity:")
               (Port.out_all g (memory_node mem_id) "MENTIONS"))).

Definition related_ids (g : G) (query : string) (depth : Z) : gset string :=
  let direct := direct_ids g query in
  if 1 <? depth
  then direct ∪ list_to_set (concat (map (hop_ids g) (elements direct)))
  else direct.

Definition find_related (self : t G) (query : string) (depth : Z) : list mref :=
  omap (λ mid, dict_get mid (_memories_cache self))
    (elements (related_ids (_graph self) query depth)).

Definition get_by_category (h : Heap) (self : t G) (category : string) : list mref :=
  List.filter (JSONBackend.keep h (has_category category))
    (dict_values (_memories_cache self)).

(** The entity names [get_entity_graph] collects for one cached id: the
    targets of the [MENTIONS] edges of its node that start with
    ["entity:"], with that text removed, other than the key asked for. *)
Definition co_mentioned (g : G) (key mem_id : string) : list string :=
  List.filter (λ ent_name, negb (bool_decide (ent_name = key)))
    (map (Str.remove "entity:")
       (List.filter (λ ent, Str.startswith ent "entity:")
          (Port.out_all g (memory_node mem_id) "MENTIONS"))).

(** [get_entity_graph]: the values under ["memories"] and under
    ["related_entities"] of the dictionary returned.  The first keeps the
    order of the traversal; the second is the list of a set. *)
Definition get_entity_graph (self : t G) (entity : string) : list mref * list string :=
  let key := Str.lower entity in
  let ids := memory_ids (Port.inc_all (_graph self) (entity_node key) "MENTIONS") in
  let cached := List.filter (λ mid, dict_has mid (_memories_cache self)) ids in
  (omap (λ mid, dict_get mid (_memories_cache self)) cached,
   elements (list_to_set (concat (map (co_mentioned (_graph self) key) cached))
             : gset string)).

End WithPort.

End GraphBackend.

(** A graph kept as the list of its triples, in the order they were put. *)
Module TripleStore.

Definition triple : Type := string * string * string.
Definition t : Type := list triple.

Definition put (g : t) (s p o : string) : t :=
  if bool_decide ((s, p, o) ∈ g) then g else g ++ [(s, p, o)].

Definition drop (g : t) (s p o : string) : t :=
  List.filter (λ x, negb (bool_decide (x = (s, p, o)))) g.

Definition inc_all (g : t) (node pred : string) : list string :=
  map (λ x, x.1.1)
    (List.filter (λ x : triple, bool_decide (x.1.2 = pred) && bool_decide (x.2 = node)) g).

Definition out_all (g : t) (node pred : string) : list string :=
  map (λ x, x.2)
    (List.filter (λ x : triple, bool_decide (x.1.1 = node) && bool_decide (x.1.2 = pred)) g).

(** A stand-in for [json.dumps]: the keys of the dictionary. *)
Definition dumps (d : list (string * json)) : string :=
  Str.join "," (map fst d).

#[global] Instance port : GraphPort t :=
  Port.Build_GraphPort t put drop inc_all out_all dumps.

End TripleStore.

(** ** SHA-256 ([hashlib.sha256]), on 32-bit words kept in [Z] *)

Module SHA256.

Definition mask : Z := 0xffffffff.

Definition add32 (x y : Z) : Z := Z.land (x + y) mask.

Definition rotr (n x : Z) : Z :=
  Z.lor (Z.shiftr x n) (Z.land (Z.shiftl x (32 - n)) mask).

Definition Ch (x y z : Z) : Z :=
  Z.lxor (Z.land x y) (Z.land (Z.lxor x mask) z).

Definition Maj (x y z : Z) : Z :=
  Z.lxor (Z.lxor (Z.land x y) (Z.land x z)) (Z.land y z).

Definition Sigma0 (x : Z) : Z := Z.lxor (Z.lxor (rotr 2 x) (rotr 13 x)) (rotr 22 x).
Definition Sigma1 (x : Z) : Z := Z.lxor (Z.lxor (rotr 6 x) (rotr 11 x)) (rotr 25 x).
Definition sigma0 (x : Z) : Z := Z.lxor (Z.lxor (rotr 7 x) (rotr 18 x)) (Z.shiftr x 3).
Definition sigma1 (x : Z) : Z := Z.lxor (Z.lxor (rotr 17 x) (rotr 19 x)) (Z.shiftr x 10).

(** A table of 32-bit words written as hexadecimal digits, eight to a
    word.  [k] counts the digits still to read of the current word. *)
Definition hex_value (c : ascii) : Z :=
  let n := Z.of_N (N_of_ascii c) in
  if n <? 58 then n - 48 else n - 87.

Fixpoint hex_words (k : nat) (acc : Z) (s : string) : list Z :=
  match s with
  | EmptyString => []
  | String c s' =>
      let acc' := 16 * acc + hex_value c in
      match k with
      | O => acc' :: hex_words 7 0 s'
      | S k' => hex_words k' acc' s'
      end
  end.

(** The round constants. *)
Definition K : list Z :=
  hex_words 7 0
    ("428a2f9871374491b5c0fbcfe9b5dba53956c25b59f111f1923f82a4ab1c5ed5"
     +:+ "d807aa9812835b01243185be550c7dc372be5d7480deb1fe9bdc06a7c19bf174"
     +:+ "e49b69c1efbe47860fc19dc6240ca1cc2de92c6f4a7484aa5cb0a9dc76f988da"
     +:+ "983e5152a831c66db00327c8bf597fc7c6e00bf3d5a7914706ca635114292967"
     +:+ "27b70a852e1b21384d2c6dfc53380d13650a7354766a0abb81c2c92e92722c85"
     +:+ "a2bfe8a1a81a664bc24b8b70c76c51a3d192e819d6990624f40e3585106aa070"
     +:+ "19a4c1161e376c082748774c34b0bcb5391c0cb34ed8aa4a5b9cca4f682e6ff3"
     +:+ "748f82ee78a5636f84c878148cc7020890befffaa4506cebbef9a3f7c67178f2").

(** The eight working words. *)
Record state : Type := mkState {
  wa : Z; wb : Z; wc : Z; wd : Z; we : Z; wf : Z; wg : Z; wh : Z
}.

Definition H0 : state :=
  mkState 0x6a09e667 0xbb67ae85 0x3c6ef372 0xa54ff53a
          0x510e527f 0x9b05688c 0x1f83d9ab 0x5be0cd19.

(** [s.encode()] on ASCII text: one byte per character. *)
Fixpoint encode (s : string) : list Z :=
  match s with
  | EmptyString => []
  | String c s' => Z.of_N (N_of_ascii c) :: encode s'
  end.

(** The [n] low bytes of [x], most significant first. *)
Fixpoint big_endian (n : nat) (x : Z) : list Z :=
  match n with
  | O => []
  | S k => Z.land (Z.shiftr x (8 * Z.of_nat k)) 0xff :: big_endian k x
  end.

(** Padding: a one bit, zero bits up to 56 modulo 64 bytes, then the
    length in bits on eight bytes. *)
Definition pad (msg : list Z) : list Z :=
  let l := Z.of_nat (length msg) in
  msg ++ [0x80] ++ repeat 0 (Z.to_nat ((55 - l) mod 64)) ++ big_endian 8 (8 * l).

Definition word_of (b3 b2 b1 b0 : Z) : Z :=
  Z.lor (Z.lor (Z.lor (Z.shiftl b3 24) (Z.shiftl b2 16)) (Z.shiftl b1 8)) b0.

Fixpoint words (bytes : list Z) : list Z :=
  match bytes with
  | b3 :: b2 :: b1 :: b0 :: r => word_of b3 b2 b1 b0 :: words r
  | _ => []
  end.

(** The message schedule, newest word first: [n] words are added to the
    sixteen of the block. *)
Fixpoint schedule (n : nat) (w : list Z) : list Z :=
  match n with
  | O => w
  | S k =>
      let x := add32 (add32 (sigma1 (nth 1 w 0)) (nth 6 w 0))
                     (add32 (sigma0 (nth 14 w 0)) (nth 15 w 0)) in
      schedule k (x :: w)
  end.

Definition round (s : state) (kw : Z * Z) : state :=
  let t1 := add32 (add32 (add32 (wh s) (Sigma1 (we s)))
                         (add32 (Ch (we s) (wf s) (wg s)) kw.1)) kw.2 in
  let t2 := add32 (Sigma0 (wa s)) (Maj (wa s) (wb s) (wc s)) in
  mkState (add32 t1 t2) (wa s) (wb s) (wc s) (add32 (wd s) t1) (we s) (wf s) (wg s).

Definition compress (s : state) (block : list Z) : state :=
  let w := rev (schedule 48 (rev block)) in
  let r := fold_left round (combine K w) s in
  mkState (add32 (wa s) (wa r)) (add32 (wb s) (wb r))
          (add32 (wc s) (wc r)) (add32 (wd s) (wd r))
          (add32 (we s) (we r)) (add32 (wf s) (wf r))
          (add32 (wg s) (wg r)) (add32 (wh s) (wh r)).

(** The blocks of sixteen words; [n] bounds their number. *)
Fixpoint blocks (n : nat) (ws : list Z) : list (list Z) :=
  match n, ws with
  | S k, _ :: _ => take 16 ws :: blocks k (drop 16 ws)
  | _, _ => []
  end.

Definition sha256 (msg : list Z) : state :=
  let ws := words (pad msg) in
  fold_left compress (blocks (length ws) ws) H0.

Definition hex_digit (x : Z) : ascii :=
  let n := Z.to_N (Z.land x 15) in
  if (n <? 10)%N then ascii_of_N (48 + n) else ascii_of_N (87 + n).

Definition hex8 (w : Z) : list ascii :=
  map (λ sh, hex_digit (Z.shiftr w sh)) [28; 24; 20; 16; 12; 8; 4; 0].

(** [h.hexdigest()] *)
Definition hexdigest (s : state) : string :=
  string_of_list_ascii
    (concat (map hex8 [wa s; wb s; wc s; wd s; we s; wf s; wg s; wh s])).

End SHA256.

(** ** The facade *)



(** [sorted(l, key=key, reverse=True)]: the elements of [l] by descending
    key, those of equal key in the order they have in [l] (the sort is
    stable; strings compare by their characters' codes). *)
Fixpoint insert_desc {A : Type} (key : A → string) (x : A) (sorted : list A) : list A :=
  match sorted with
  | [] => [x]
  | y :: rest =>
      if String.ltb (key x) (key y)
      then y :: insert_desc key x rest
      else x :: y :: rest
  end.

Definition sorted_desc {A : Type} (key : A → string) (l : list A) : list A :=
  foldr (insert_desc key) [] l.

Module MemoryStore.

(** [_generate_id(content)], the call of [datetime.now().isoformat()]
    in it having returned [timestamp]. *)
Definition _generate_id (timestamp content : string) : string :=
  Str.take 12 (SHA256.hexdigest (SHA256.sha256 (SHA256.encode (content +:+ timestamp)))).

(** The text of a procedure: the name, then the numbered steps. *)
Definition procedure_text (name : string) (steps : list string) : string :=
  "Procedure: " +:+ name +:+ "
Steps:
" +:+ Str.join "
" (imap (λ i step, str_of_nat (i + 1) +:+ ". " +:+ step) steps).

(** A dictionary display that starts with [entries] and ends with the
    keyword arguments [metadata] unpacked. *)
Definition with_kwargs (entries metadata : list (string * json)) : list (string * json) :=
  foldl (λ d kv, dict_set kv.1 kv.2 d) entries metadata.

Section WithPort.
Context {G : Type} `{!GraphPort G}.

Inductive backend : Type :=
| Json (b : JSONBackend.t)
| Graph (b : GraphBackend.t G).

Record t : Type := mk { _backend : backend }.


Definition backend_get_all (h : Heap) (b : backend) (offset : Z) (limit : option Z)
    : lref * Heap :=
  match b with
  | Json j => JSONBackend.get_all h j offset limit
  | Graph g => GraphBackend.get_all h g offset limit
  end.

Definition backend_save (h : Heap) (b : backend) (memories : lref)
    : outcome (Heap * backend) :=
  match b with
  | Json j => let '(h1, j1) := JSONBackend.save h j memories in Returns (h1, Json j1)
  | Graph g =>
      match GraphBackend.save h g memories with
      | Returns g1 => Returns (h, Graph g1)
      | Raises e => Raises e
      | OutOfModel => OutOfModel
      end
  end.

Definition backend_add (h : Heap) (b : backend) (memory : mref)
    : outcome (Heap * backend) :=
  match b with
  | Json j => let '(h1, j1) := JSONBackend.add h j memory in Returns (h1, Json j1)
  | Graph g =>
      match GraphBackend.add h g memory with
      | Returns g1 => Returns (h, Graph g1)
      | Raises e => Raises e
      | OutOfModel => OutOfModel
      end
  end.

Definition backend_delete (h : Heap) (b : backend) (memory_id : string)
    : bool * Heap * backend :=
  match b with
  | Json j =>
      let '(r, h1, j1) := JSONBackend.delete h j memory_id in (r, h1, Json j1)
  | Graph g =>
      let '(r, g1) := GraphBackend.delete h g memory_id in (r, h, Graph g1)
  end.

(** The property [memories]: [get_all()] with its defaults. *)
Definition memories (h : Heap) (self : t) : lref * Heap :=
  backend_get_all h (_backend self) 0 None.

(** The end of the three constructors: the new object is handed to the
    backend and returned. *)
Definition store_new (h : Heap) (self : t) (m : Memory)
    : outcome (mref * Heap * t) :=
  let '(memory, h1) := new_memory h m in
  match backend_add h1 (_backend self) memory with
  | Returns (h2, b) => Returns (memory, h2, mk b)
  | Raises e => Raises e
  | OutOfModel => OutOfModel
  end.

(** In the constructors [now] is the reading of the clock taken first
    and [timestamp] the one taken inside [_generate_id]. *)
Definition add_fact (h : Heap) (self : t) (now timestamp : string)
    (fact : string) (metadata : list (string * json)) : outcome (mref * Heap * t) :=
  store_new h self
    (mkMemory (_generate_id timestamp fact) fact "semantic" now now metadata).

Definition add_episode (h : Heap) (self : t) (now timestamp : string)
    (summary : string) (metadata : list (string * json)) : outcome (mref * Heap * t) :=
  store_new h self
    (mkMemory (_generate_id timestamp summary) summary "episodic" now now
       (with_kwargs [("timestamp", JStr now)] metadata)).

Definition add_procedure (h : Heap) (self : t) (now timestamp : string)
    (name : string) (steps : list string) (metadata : list (string * json))
    : outcome (mref * Heap * t) :=
  store_new h self
    (mkMemory (_generate_id timestamp name) (procedure_text name steps)
       "procedural" now now
       (with_kwargs [("procedure_name", JStr name);
                     ("steps", JArr (map JStr steps))] metadata)).



Definition delete (h : Heap) (self : t) (memory_id : string) : bool * Heap * t :=
  let '(r, h1, b) := backend_delete h (_backend self) memory_id in (r, h1, mk b).

Definition get_by_category (h : Heap) (self : t) (category : string) : list mref :=
  match _backend self with
  | Json j => JSONBackend.get_by_category h j category
  | Graph g => GraphBackend.get_by_category h g category
  end.

(** [m.created_at] for the object at [r] *)
Definition created_at_of (h : Heap) (r : mref) : string :=
  match objs h !! r with
  | Some m => created_at m
  | None => EmptyString
  end.

Definition get_recent_episodes (h : Heap) (self : t) (limit : Z) : list mref :=
  slice_to (sorted_desc (created_at_of h) (get_by_category h self "episodic")) limit.

(** The test of the loop of [get_procedure]: [metadata.get] gives a value
    equal to the string [name]. *)
Definition is_procedure (name : string) (m : Memory) : bool :=
  has_category "procedural" m &&
  match dict_get "procedure_name" (metadata m) with
  | Some (JStr s) => bool_decide (s = name)
  | _ => false
  end.

Definition get_procedure (h : Heap) (self : t) (name : string) : option mref * Heap :=
  let '(l1, h1) := memories h self in
  (List.find (JSONBackend.keep h1 (is_procedure name)) (items h1 l1), h1).

(** [clear_all]: [save] of a new empty list. *)
Definition clear_all (h : Heap) (self : t) : outcome (Heap * t) :=
  let '(l, h1) := new_list h [] in
  match backend_save h1 (_backend self) l with
  | Returns (h2, b) => Returns (h2, mk b)
  | Raises e => Raises e
  | OutOfModel => OutOfModel
  end.

(** [find_related] of the facade: the traversal of the graph backend, and
    [search(query)] with its defaults otherwise. *)
Definition find_related (h : Heap) (self : t) (query : string) (depth : Z) : list mref :=
  match _backend self with
  | Graph g => GraphBackend.find_related g query depth
  | Json j => JSONBackend.search h j query None 5
  end.

End WithPort.

End MemoryStore.

(** ** Notions used in the statements *)



(** The facts [add] puts for one record. *)
Definition put_record {G : Type} `{!GraphPort G} (g : G) (m : Memory) : G :=
  GraphBackend.graph_facts g m (default [] (GraphBackend.steps_of m)).

(** The cache entries the records behind [l] make: id and reference. *)
Definition entries (h : Heap) (l : list mref) : list (string * mref) :=
  omap (λ r, (λ m, (id m, r)) <$> objs h !! r) l.

(** A small store: two facts and an episode, held by the list object 0. *)
Module Example.

Definition python : Memory :=
  mkMemory "86ae17553dc1" "User prefers Python" "semantic"
    "2024-01-01T00:00:00.000001" "2024-01-01T00:00:00.000001" [].

Definition pytest : Memory :=
  mkMemory "5f0c2a9d13e7" "User uses pytest with Python" "semantic"
    "2024-01-02T09:30:00.000250" "2024-01-02T09:30:00.000250" [].

Definition debug : Memory :=
  mkMemory "c41d7e02b9aa" "Helped debug authentication flow" "episodic"
    "2024-01-03T17:45:10.120000" "2024-01-03T17:45:10.120000"
    [("timestamp", JStr "2024-01-03T17:45:10.120000")].

Definition heap : Heap := mkHeap [python; pytest; debug] [[0; 1; 2]%nat].

Definition file : JSONBackend.t :=
  JSONBackend.mk (JSONBackend.Holds (JSONBackend.envelope [python; pytest; debug])) 0%nat.

Definition graph : GraphBackend.t TripleStore.t := GraphBackend.mk [] [].

End Example.

(** The list object [r] of [h1] is new with respect to [h] and shares
    nothing with the list object [stored]: assigning to it leaves [stored]
    as it is. *)
Definition fresh_copy (h h1 : Heap) (stored r : lref) : Prop :=
  lists h !! r = None ∧
  r ≠ stored ∧
  objs h1 = objs h ∧
  items h1 stored = items h stored ∧
  ∀ changed, items (set_list h1 r changed) stored = items h stored.

(** A dictionary from ids to records: no key twice, and each record under
    its own id. *)
Definition cache_ok (h : Heap) (cache : list (string * mref)) : Prop :=
  NoDup cache.*1 ∧
  Forall (λ kr, ∃ m, objs h !! kr.2 = Some m ∧ id m = kr.1) cache.

(** Two procedures, in the lists at 0 and at 1: the steps of the first
    are a list of strings, those of the second a number.  The list at 2 is
    the cache of a file backend that holds nothing yet. *)
Module Recipe.

Definition deploy : Memory :=
  mkMemory "04cda009fdec" "Procedure: deploy
Steps:
1. test
2. build" "procedural"
    "2024-03-01T12:00:00.000001" "2024-03-01T12:00:00.000001"
    [("procedure_name", JStr "deploy"); ("steps", JArr [JStr "test"; JStr "build"])].

Definition counted : Memory :=
  mkMemory "7c9e1f20a4b3" "Procedure: release" "procedural"
    "2024-03-02T12:00:00.000001" "2024-03-02T12:00:00.000001"
    [("procedure_name", JStr "release"); ("steps", JNum 3)].

Definition heap : Heap :=
  mkHeap [Example.python; deploy; counted] [[0; 1]%nat; [0; 2; 1]%nat; []].

Definition file : JSONBackend.t :=
  JSONBackend.mk (JSONBackend.Holds (JSONBackend.envelope [])) 2%nat.

End Recipe.

(** Two records that carry one id. *)
Module Twins.

Definition first : Memory :=
  mkMemory "b4733e76ada6" "User prefers Python" "semantic"
    "2023-08-11T09:23:40.822431" "2023-08-11T09:23:40.822431" [].

Definition second : Memory :=
  mkMemory "b4733e76ada6" "User prefers Python" "semantic"
    "2025-01-12T21:21:35.290861" "2025-01-12T21:21:35.290861" [].

Definition heap : Heap := mkHeap [first; second] [[0; 1]%nat].

Definition file : JSONBackend.t :=
  JSONBackend.mk (JSONBackend.Holds (JSONBackend.envelope [first; second])) 0%nat.

End Twins.

(** The records other than the one of id [k]. *)
Definition without (k : string) (ms : list Memory) : list Memory :=
  List.filter (λ m, negb (bool_decide (id m = k))) ms.

(** The double quote. *)
Definition quote : ascii := "034"%char.

(** [q] is a double-quoted substring of [content]: it stands between two
    double quotes, holds none, and is not empty. *)
Definition double_quoted (content q : string) : Prop :=
  ∃ pre post,
    content = pre +:+ String quote (q +:+ String quote post) ∧
    q ≠ EmptyString ∧
    Str.mem quote q = false.

(** The conditions on a stripped word to be taken as an entity. *)
Definition entity_word (x : string) : Prop :=
  ∃ c rest,
    x = String c rest ∧
    Str.isupper c = true ∧
    (1 < String.length x)%nat ∧
    Str.lower x ∉ GraphBackend.stoplist.

(** The quoted strings of a text as the docstring of [_extract_entities]
    means them, [Python] in [User prefers "Python"]: the text between the
    first double quote and the second, between the third and the fourth,
    and so on; a last quote without a partner opens nothing.  [open] is
    [None] outside quotes and [Some acc] inside, [acc] being the text read
    since the opening quote, reversed. *)
Fixpoint quoted_go (open : option string) (s : string) : list string :=
  match s with
  | EmptyString => []
  | String c s' =>
      if decide (c = quote)
      then match open with
           | Some acc => String.rev acc :: quoted_go None s'
           | None => quoted_go (Some EmptyString) s'
           end
      else match open with
           | Some acc => quoted_go (Some (String c acc)) s'
           | None => quoted_go None s'
           end
  end.

Definition quoted_strings (content : string) : list string :=
  quoted_go None content.

Module Quoting.

(** [He typed "" and then "Python"]: an empty pair of quotes before a
    quoted word. *)
Definition content : string :=
  "He typed " +:+ String quote (String quote
    (" and then " +:+ String quote ("Python" +:+ String quote EmptyString))).

(** [He typed "" and then "Python" or "Rust"] *)
Definition longer : string :=
  "He typed " +:+ String quote (String quote
    (" and then " +:+ String quote ("Python" +:+ String quote
       (" or " +:+ String quote ("Rust" +:+ String quote EmptyString))))).

(** [User prefers "Python" over "Rust"] *)
Definition plain : string :=
  "User prefers " +:+ String quote ("Python" +:+ String quote
    (" over " +:+ String quote ("Rust" +:+ String quote EmptyString))).

End Quoting.


(** What the scan returns from a state: after an opening quote and the
    text [acc] (reversed, without a quote), or outside quotes. *)
Definition scanned (open : option string) (s : string) : string :=
  match open with
  | Some acc => String quote (String.rev_app acc s)
  | None => s
  end.

(** The id [find_related] reads off a node name. *)
Definition id_of_node (node : string) : string := Str.remove "memory:" node.

Section Nodes.
Context {G : Type} `{!GraphPort G}.

(** [node] is a memory node with a [MENTIONS] edge to the entity the query
    names. *)
Definition direct_node (g : G) (query node : string) : Prop :=
  Str.startswith node "memory:" = true ∧
  node ∈ Port.inc_all g (GraphBackend.entity_node (Str.lower query)) "MENTIONS".

(** [node] is a memory node with a [MENTIONS] edge to an entity that the
    memory of some direct node mentions. *)
Definition second_node (g : G) (query node : string) : Prop :=
  Str.startswith node "memory:" = true ∧
  ∃ first ent,
    direct_node g query first ∧
    ent ∈ Port.out_all g (GraphBackend.memory_node (id_of_node first)) "MENTIONS" ∧
    Str.startswith ent "entity:" = true ∧
    node ∈ Port.inc_all g ent "MENTIONS".
End Nodes.

(** A memory that mentions Python and Rust, and one that mentions Rust. *)
Module Orphan.

Definition both : Memory :=
  mkMemory "0a1b2c3d4e5f" "Tried Python and Rust" "semantic"
    "2024-02-01T08:00:00.000100" "2024-02-01T08:00:00.000100" [].

Definition rust : Memory :=
  mkMemory "6f7e8d9c0b1a" "Rust is fast" "semantic"
    "2024-02-02T08:00:00.000100" "2024-02-02T08:00:00.000100" [].

Definition heap : Heap := mkHeap [both; rust] [].

Definition empty : GraphBackend.t TripleStore.t := GraphBackend.mk [] [].

(** The backend after [add] of the memory at [r]. *)
Definition added (self : GraphBackend.t TripleStore.t) (r : mref)
    : GraphBackend.t TripleStore.t :=
  match GraphBackend.add heap self r with
  | Returns self1 => self1
  | _ => self
  end.

(** Both memories added, and then the first one deleted. *)
Definition two : GraphBackend.t TripleStore.t := added (added empty 0%nat) 1%nat.

Definition one : GraphBackend.t TripleStore.t :=
  (GraphBackend.delete heap two "0a1b2c3d4e5f").2.

End Orphan.

(** The first twelve characters of the hexadecimal SHA-256 digest of a
    text. *)
Definition fingerprint (text : string) : string :=
  Str.take 12 (SHA256.hexdigest (SHA256.sha256 (SHA256.encode text))).

(** The record a constructor of the facade has made and returned. *)
Definition created {G : Type} `{!GraphPort G}
    (o : outcome (mref * Heap * @MemoryStore.t G)) : option Memory :=
  match o with
  | Returns (memory, h, _) => objs h !! memory
  | _ => None
  end.


Section Stores.
Context {G : Type} `{!GraphPort G}.

(** The references a backend holds, in the order of the store. *)
Definition stored (h : Heap) (b : @MemoryStore.backend G) : list mref :=
  match b with
  | MemoryStore.Json j => items h (JSONBackend._memories j)
  | MemoryStore.Graph g => dict_values (GraphBackend._memories_cache g)
  end.


End Stores.

(** The categories of the three constructors of the facade. *)
Definition categories : list string := ["semantic"; "episodic"; "procedural"].

(** The list [get_all] of the file backend returns. *)
Definition page (h : Heap) (self : JSONBackend.t) (offset : Z) (limit : option Z)
    : list mref :=
  items (JSONBackend.get_all h self offset limit).2
        (JSONBackend.get_all h self offset limit).1.


(** Three episodes and a fact, held by the list object 0. *)
Module Diary.

Definition monday : Memory :=
  mkMemory "a1a1a1a1a1a1" "Set up the project" "episodic"
    "2024-01-01T10:00:00.000001" "2024-01-01T10:00:00.000001"
    [("timestamp", JStr "2024-01-01T10:00:00.000001")].

Definition friday : Memory :=
  mkMemory "b2b2b2b2b2b2" "Shipped the release" "episodic"
    "2024-01-05T18:30:00.000001" "2024-01-05T18:30:00.000001"
    [("timestamp", JStr "2024-01-05T18:30:00.000001")].

Definition wednesday : Memory :=
  mkMemory "c3c3c3c3c3c3" "Fixed the login bug" "episodic"
    "2024-01-03T09:15:00.000001" "2024-01-03T09:15:00.000001"
    [("timestamp", JStr "2024-01-03T09:15:00.000001")].

Definition heap : Heap :=
  mkHeap [Example.python; monday; friday; wednesday] [[0; 1; 2; 3]%nat].


End Diary.

(** * Properties *)

(** ** The heap *)

Section HeapFacts.
Implicit Types (h : Heap) (l : list mref) (ms : list Memory).

Lemma values_nil h : values h [] = [].
Proof. reflexivity. Qed.

Lemma values_fresh (os ms : list Memory) (ls : list (list mref)) :
  values (mkHeap (os ++ ms) ls) (seq (length os) (length ms)) = ms.
Proof.
  unfold values; simpl. revert os.
  induction ms as [|m ms IH]; intros os; simpl; [done|].
  rewrite lookup_app_r by lia. rewrite Nat.sub_diag. simpl. f_equal.
  specialize (IH (os ++ [m])).
  rewrite length_app, <- app_assoc in IH. simpl in IH.
  rewrite Nat.add_1_r in IH. exact IH.
Qed.

Lemma items_new_list h l :
  items (new_list h l).2 (new_list h l).1 = l.
Proof.
  unfold items, new_list; simpl.
  rewrite lookup_app_r by lia. by rewrite Nat.sub_diag.
Qed.

Lemma items_new_list_old h l (r : lref) :
  (r < length (lists h))%nat →
  items (new_list h l).2 r = items h r.
Proof.
  intros Hr. unfold items, new_list; simpl. by rewrite lookup_app_l.
Qed.

Lemma records_new_list h l :
  records (new_list h l).2 (new_list h l).1 = values h l.
Proof. unfold records. rewrite items_new_list. reflexivity. Qed.

Lemma records_fresh h ms :
  let '(rs, h1) := new_memories h ms in
  let '(r, h2) := new_list h1 rs in
  records h2 r = ms.
Proof.
  unfold new_memories.
  pose proof (records_new_list (mkHeap (objs h ++ ms) (lists h))
                (seq (length (objs h)) (length ms))) as H.
  destruct (new_list _ _) as [r h2]. simpl in H. rewrite H.
  apply values_fresh.
Qed.
End HeapFacts.

(** ** Records and their dictionaries *)

Lemma from_dict_to_dict (m : Memory) : from_dict (to_dict m) = Decoded m.
Proof. by destruct m. Qed.

Lemma decode_all_to_dict (ms : list Memory) :
  decode_all (map to_dict ms) = Returns ms.
Proof.
  induction ms as [|m ms IH]; [done|].
  cbn [map decode_all]. by rewrite from_dict_to_dict, IH.
Qed.

(** ** The file backend: loading and saving *)

Section FileLoad.
Import JSONBackend.
Implicit Types (h : Heap) (self : JSONBackend.t).



(** The versioned envelope loads as its decoded records; file and cache
    stay as they are. *)
Lemma load_envelope_decodes h self d data ms :
  memory_file self = Holds (JObj d) →
  dict_has "schema_version" d = true →
  dict_get "memories" d = Some (JArr data) →
  decode_all data = Returns ms →
  ∃ r h1, load h self = (Returns r, h1, self) ∧ records h1 r = ms.
Proof.
  intros Hf Hv Hm Hd. unfold load. rewrite Hf, Hv, Hm.
  cbn [iterate]. rewrite Hd.
  pose proof (records_fresh h ms) as H.
  destruct (new_memories h ms) as [rs h1].
  destruct (new_list h1 rs) as [r h2]. by exists r, h2.
Qed.

Lemma load_after_save h self memories h' :
  ∃ r h1,
    load h' (save h self memories).2 = (Returns r, h1, (save h self memories).2) ∧
    records h1 r = records h memories.
Proof.
  eapply load_envelope_decodes with (data := map to_dict (records h memories));
    [reflexivity..|].
  apply decode_all_to_dict.
Qed.

(** A record that does not fit the constructor makes [load] raise, from
    the legacy array as from the envelope. *)
Lemma load_legacy_raises h self data e :
  memory_file self = Holds (JArr data) →
  decode_all data = Raises e →
  load h self = (Raises e, h, self).
Proof. intros Hf Hd. unfold load. by rewrite Hf, Hd. Qed.

Lemma load_envelope_raises h self d data e :
  memory_file self = Holds (JObj d) →
  dict_has "schema_version" d = true →
  dict_get "memories" d = Some (JArr data) →
  decode_all data = Raises e →
  load h self = (Raises e, h, self).
Proof. intros Hf Hv Hm Hd. unfold load. rewrite Hf, Hv, Hm. simpl. by rewrite Hd. Qed.

(** [load] after [save] gives back the records of the list saved,
    whatever they are. *)
Lemma save_then_load_file h self memories :
  ∃ h1 file1 r h2,
    save h self memories = (h1, file1) ∧
    load h1 file1 = (Returns r, h2, file1) ∧
    records h2 r = records h memories.
Proof.
  destruct (load_after_save h self memories h) as (r & h2 & Hl & Hr).
  by exists h, (save h self memories).2, r, h2.
Qed.
End FileLoad.

(** C1.  The file is a legacy array whose only record has an [id] and
    nothing else.  [load] does not return an empty list: the constructor
    call fails and the [TypeError] leaves [load], which catches
    [JSONDecodeError], [FileNotFoundError] and [OSError] only.  The same
    record inside a versioned envelope, an envelope whose [memories] is
    [null], and a file that is no text do the same. *)
Theorem load_raises_on_malformed_record :
  let record := JObj [("id", JStr "a1")] in
  let envelope v := JObj [("schema_version", JStr "1.0"); ("memories", v)] in
  let at_file f := JSONBackend.load empty_heap (JSONBackend.mk f O) in
  at_file (JSONBackend.Holds (JArr [record]))
    = (Raises TypeError, empty_heap, JSONBackend.mk (JSONBackend.Holds (JArr [record])) O)
  ∧ (at_file (JSONBackend.Holds (envelope (JArr [record])))).1.1 = Raises TypeError
  ∧ (at_file (JSONBackend.Holds (envelope JNull))).1.1 = Raises TypeError
  ∧ (at_file JSONBackend.Undecodable).1.1 = Raises UnicodeDecodeError.
Proof. repeat split. Qed.

(** C2.  A file that holds a bare array of record objects: one [load]
    returns the records, makes the returned list the cache and leaves the
    versioned envelope of these records in the file.  From then on a
    [load], in whatever heap, reads the envelope, returns the same records
    and leaves file and cache as they are. *)
Theorem legacy_array_migrates_once
    (h : Heap) (self : JSONBackend.t) (data : list json) (ms : list Memory) :
  JSONBackend.memory_file self = JSONBackend.Holds (JArr data) →
  decode_all data = Returns ms →
  ∃ r h1 self1,
    JSONBackend.load h self = (Returns r, h1, self1) ∧
    records h1 r = ms ∧
    JSONBackend._memories self1 = r ∧
    JSONBackend.memory_file self1 = JSONBackend.Holds (JSONBackend.envelope ms) ∧
    ∀ h2, ∃ r' h3,
      JSONBackend.load h2 self1 = (Returns r', h3, self1) ∧ records h3 r' = ms.
Proof.
  intros Hf Hd. unfold JSONBackend.load. rewrite Hf, Hd.
  pose proof (records_fresh h ms) as H.
  destruct (new_memories h ms) as [rs h1].
  destruct (new_list h1 rs) as [r h2]. simpl.
  exists r, h2, (JSONBackend.mk (JSONBackend.Holds (JSONBackend.envelope (records h2 r))) r).
  rewrite H. repeat split.
  intros h3.
  eapply load_envelope_decodes with (data := map to_dict ms); [reflexivity..|].
  apply decode_all_to_dict.
Qed.

Lemma legacy_array_migrates_once_witness :
  let m := mkMemory "a1" "User prefers Python" "semantic" "t0" "t0" [] in
  ∃ r h1 self1,
    JSONBackend.load empty_heap (JSONBackend.mk (JSONBackend.Holds (JArr [to_dict m])) O)
      = (Returns r, h1, self1) ∧
    records h1 r = [m] ∧
    JSONBackend._memories self1 = r ∧
    JSONBackend.memory_file self1 = JSONBackend.Holds (JSONBackend.envelope [m]) ∧
    ∀ h2, ∃ r' h3,
      JSONBackend.load h2 self1 = (Returns r', h3, self1) ∧ records h3 r' = [m].
Proof.
  intros m.
  apply (legacy_array_migrates_once empty_heap _ [to_dict m] [m]); reflexivity.
Defined.

(** ** The graph backend: the cache *)

Section GraphCache.
Context {G : Type} `{!GraphPort G}.
Import GraphBackend.
Implicit Types (h : Heap) (self : GraphBackend.t G) (l : list mref).

Lemma entries_keys h l : (entries h l).*1 = id <$> values h l.
Proof.
  unfold entries, values.
  induction l as [|r l IH]; simpl; [done|].
  destruct (objs h !! r); simpl; [by f_equal|done].
Qed.

Lemma entries_values h l : values h (dict_values (entries h l)) = values h l.
Proof.
  unfold entries, values, dict_values.
  induction l as [|r l IH]; simpl; [done|].
  destruct (objs h !! r) as [m|] eqn:E; simpl; [|done].
  rewrite E. simpl. by f_equal.
Qed.

Lemma dict_set_fresh {V : Type} (k : string) (v : V) (d : list (string * V)) :
  k ∉ d.*1 → dict_set k v d = d ++ [(k, v)].
Proof.
  induction d as [|[k' v'] d IH]; simpl; [done|].
  intros Hn. apply not_elem_of_cons in Hn as [Hk Hn].
  destruct (decide (k' = k)) as [->|]; [done|].
  f_equal. by apply IH.
Qed.

Lemma add_each_spec h l : ∀ self,
  Forall (λ m, is_Some (steps_of m)) (values h l) →
  NoDup ((_memories_cache self).*1 ++ (id <$> values h l)) →
  add_each h self l
  = Returns (mk (foldl put_record (_graph self) (values h l))
                (_memories_cache self ++ entries h l)).
Proof.
  unfold entries, values.
  induction l as [|r l IH]; intros self Hs Hn; simpl.
  { rewrite app_nil_r. by destruct self. }
  unfold add. simpl in Hs, Hn.
  destruct (objs h !! r) as [m|] eqn:E; simpl in *; [|by apply IH].
  apply Forall_cons in Hs as [[steps Hm] Hs].
  unfold add_record. rewrite Hm.
  assert (id m ∉ (_memories_cache self).*1) as Hk.
  { intros Hi. apply NoDup_app in Hn as (_ & Hd & _).
    apply (Hd _ Hi). by left. }
  rewrite dict_set_fresh by done.
  rewrite (IH (mk (graph_facts (_graph self) m steps)
                  (_memories_cache self ++ [(id m, r)])) Hs).
  - assert (put_record (_graph self) m = graph_facts (_graph self) m steps) as ->
      by (unfold put_record; by rewrite Hm).
    simpl. by rewrite <- app_assoc.
  - simpl. by rewrite fmap_app, <- app_assoc.
Qed.

Lemma add_each_returns h l : ∀ self,
  Forall (λ m, is_Some (steps_of m)) (values h l) →
  ∃ self1, add_each h self l = Returns self1.
Proof.
  unfold values.
  induction l as [|r l IH]; intros self Hs; simpl; [by eexists|].
  unfold add. simpl in Hs.
  destruct (objs h !! r) as [m|]; simpl in *; [|by apply IH].
  apply Forall_cons in Hs as [[steps Hm] Hs].
  unfold add_record. rewrite Hm. by apply IH.
Qed.

Lemma add_each_app h l1 l2 : ∀ self,
  add_each h self (l1 ++ l2)
  = match add_each h self l1 with
    | Returns self1 => add_each h self1 l2
    | o => o
    end.
Proof.
  induction l1 as [|r l1 IH]; intros self; simpl; [done|].
  destruct (add h self r); [apply IH|done..].
Qed.

Lemma steps_raise_None (m : Memory) : steps_raise m = true → steps_of m = None.
Proof.
  unfold steps_raise, steps_of.
  destruct (has_category "procedural" m); [|done]. simpl.
  destruct (dict_get "steps" (metadata m)) as [v|]; [|done].
  by destruct (iterate v).
Qed.

(** [save] raises [TypeError] at the first procedural record whose steps
    cannot be iterated. *)
Lemma graph_save_raises h self memories (before after : list mref) (r : mref) (m : Memory) :
  items h memories = before ++ r :: after →
  Forall (λ m, is_Some (steps_of m)) (values h before) →
  objs h !! r = Some m →
  steps_raise m = true →
  save h self memories = Raises TypeError.
Proof.
  intros Hi Hb Hm Hr. unfold save. rewrite Hi, add_each_app.
  destruct (add_each_returns h before (mk (_graph self) []) Hb) as [self1 ->].
  simpl. unfold add. rewrite Hm. unfold add_record.
  by rewrite (steps_raise_None m Hr), Hr.
Qed.

(** [save] with records of distinct ids leaves exactly them in the cache,
    in the order of the list, and [load] lists them. *)
Lemma graph_load_after_save h self memories :
  NoDup (id <$> records h memories) →
  Forall (λ m, is_Some (steps_of m)) (records h memories) →
  ∃ self1,
    save h self memories = Returns self1 ∧
    _graph self1 = foldl put_record (_graph self) (records h memories) ∧
    _memories_cache self1 = entries h (items h memories) ∧
    records (load h self1).2 (load h self1).1 = records h memories.
Proof.
  intros Hn Hs. unfold save.
  rewrite (add_each_spec h (items h memories) (mk (_graph self) [])) by done.
  eexists. split; [reflexivity|]. split; [done|]. split; [done|].
  unfold load. rewrite records_new_list. simpl. apply entries_values.
Qed.
End GraphCache.

(** C3, amended.  From the file backend, saving any list of records and
    loading gives back the records that were saved, in the order they were
    saved in.  From the graph backend it does so for every list of records
    with pairwise distinct ids in which the steps of each procedural record
    can be iterated and are strings (a list of strings, a string, a
    dictionary, or no steps at all); the backend has then put the facts of
    every record into its graph again.  In particular the set loaded and
    the set saved agree record by record under each id. *)
Theorem save_then_load_round_trip {G : Type} `{!GraphPort G}
    (h : Heap) (file : JSONBackend.t) (graph : GraphBackend.t G) (memories : lref) :
  (∃ h1 file1 r h2,
     JSONBackend.save h file memories = (h1, file1) ∧
     JSONBackend.load h1 file1 = (Returns r, h2, file1) ∧
     records h2 r = records h memories) ∧
  (NoDup (id <$> records h memories) →
   Forall (λ m, is_Some (GraphBackend.steps_of m)) (records h memories) →
   ∃ graph1 r h2,
     GraphBackend.save h graph memories = Returns graph1 ∧
     GraphBackend._graph graph1
     = foldl put_record (GraphBackend._graph graph) (records h memories) ∧
     GraphBackend.load h graph1 = (r, h2) ∧
     records h2 r = records h memories).
Proof.
  split.
  - destruct (load_after_save h file memories h) as (r & h2 & Hl & Hr).
    by exists h, (JSONBackend.save h file memories).2, r, h2.
  - intros Hn Hs.
    destruct (graph_load_after_save h graph memories Hn Hs) as (g1 & Hg & Hp & _ & Hr).
    exists g1, (GraphBackend.load h g1).1, (GraphBackend.load h g1).2.
    split; [done|]. split; [done|]. split; [|done].
    by destruct (GraphBackend.load h g1).
Qed.

Lemma save_then_load_round_trip_witness :
  records Recipe.heap 0%nat = [Example.python; Recipe.deploy] ∧
  ∃ graph1 r h2,
    GraphBackend.save Recipe.heap Example.graph 0%nat = Returns graph1 ∧
    GraphBackend._graph graph1
    = foldl put_record (GraphBackend._graph Example.graph)
        (records Recipe.heap 0%nat) ∧
    GraphBackend.load Recipe.heap graph1 = (r, h2) ∧
    records h2 r = records Recipe.heap 0%nat.
Proof.
  split; [reflexivity|].
  apply (save_then_load_round_trip Recipe.heap Recipe.file Example.graph 0%nat).
  - apply (bool_decide_unpack _). vm_compute. exact I.
  - apply (bool_decide_unpack _). vm_compute. exact I.
Defined.

(** C3 as stated fails on the graph backend.  The two records behind the
    list object 1 have distinct ids; the steps of the second are the number
    3, and [save] raises [TypeError] when it comes to them.  The file
    backend saves and loads the same list. *)
Lemma save_then_load_counterexample :
  records Recipe.heap 1%nat = [Example.python; Recipe.counted; Recipe.deploy] ∧
  NoDup (id <$> records Recipe.heap 1%nat) ∧
  GraphBackend.save Recipe.heap Example.graph 1%nat = Raises TypeError ∧
  ∃ h1 file1 r h2,
    JSONBackend.save Recipe.heap Recipe.file 1%nat = (h1, file1) ∧
    JSONBackend.load h1 file1 = (Returns r, h2, file1) ∧
    records h2 r = records Recipe.heap 1%nat.
Proof.
  split; [reflexivity|]. split; [|split].
  - apply (bool_decide_unpack _). vm_compute. exact I.
  - vm_compute. reflexivity.
  - apply (save_then_load_file Recipe.heap Recipe.file 1%nat).
Qed.

(** ** Slices and filters *)

Section SliceFacts.
Context {A : Type}.
Implicit Types (l : list A).

Lemma slice_to_sublist l (b : Z) : slice_to l b `sublist_of` l.
Proof. unfold slice_to. destruct (b <? 0); apply sublist_take. Qed.

Lemma slice_from_sublist l (a : Z) : slice_from l a `sublist_of` l.
Proof. unfold slice_from. destruct (a <? 0); apply sublist_drop. Qed.

Lemma slice_to_length l (b : Z) : 0 ≤ b → Z.of_nat (length (slice_to l b)) ≤ b.
Proof.
  intros Hb. unfold slice_to.
  destruct (Z.ltb_spec b 0) as [?|_]; [lia|].
  rewrite length_take. lia.
Qed.

Lemma slice_to_nonneg l (b : Z) : 0 ≤ b → slice_to l b = take (Z.to_nat b) l.
Proof. intros Hb. unfold slice_to. by destruct (Z.ltb_spec b 0); [lia|]. Qed.

Lemma slice_from_nonneg l (a : Z) : 0 ≤ a → slice_from l a = drop (Z.to_nat a) l.
Proof. intros Ha. unfold slice_from. by destruct (Z.ltb_spec a 0); [lia|]. Qed.

Lemma filter_sublist (p : A → bool) l : List.filter p l `sublist_of` l.
Proof.
  induction l as [|x l IH]; simpl; [constructor|].
  destruct (p x); by constructor.
Qed.

Lemma elem_of_List_filter (p : A → bool) l x :
  x ∈ List.filter p l ↔ x ∈ l ∧ p x = true.
Proof. rewrite !list_elem_of_In. apply filter_In. Qed.

Lemma sublist_elem_of l k x : l `sublist_of` k → x ∈ l → x ∈ k.
Proof. intros Hs Hx. eapply elem_of_submseteq; [done|]. by apply sublist_submseteq. Qed.
End SliceFacts.

(** ** The file backend: search *)

Lemma keep_true (h : Heap) (p : Memory → bool) (r : mref) :
  JSONBackend.keep h p r = true ↔ ∃ m, objs h !! r = Some m ∧ p m = true.
Proof.
  unfold JSONBackend.keep. destruct (objs h !! r) as [m|]; split.
  - intros Hp. by exists m.
  - by intros (m' & [= <-] & Hp).
  - done.
  - by intros (m' & ? & _).
Qed.

Lemma matches_true (query_lower : string) (wanted : option string) (m : Memory) :
  JSONBackend.matches query_lower wanted m = true →
  Str.contains (Str.lower (content m)) query_lower = true ∧
  ∀ c, wanted = Some c → c ≠ EmptyString → category m = c.
Proof.
  unfold JSONBackend.matches, JSONBackend.skipped.
  destruct wanted as [c|]; [|by intros ->].
  destruct (JSONBackend.truthy (Some c) && negb (has_category c m)) eqn:E; [done|].
  intros ->. split; [done|]. intros c' [= <-] Hc.
  destruct c as [|a c]; [done|]. simpl in E.
  apply negb_false_iff in E. unfold has_category in E.
  by apply bool_decide_eq_true in E.
Qed.

(** C4, amended.  For a limit that is not negative, [search] returns at
    most that many records; each of them has a content that contains the
    query, both taken in lower case, and the category asked for when one is
    given and is not the empty string; and the records come in the order
    of the stored list. *)
Theorem search_bounded_matching_ordered
    (h : Heap) (self : JSONBackend.t) (query : string)
    (wanted : option string) (limit : Z) :
  0 ≤ limit →
  let found := JSONBackend.search h self query wanted limit in
  Z.of_nat (length found) ≤ limit ∧
  (∀ r, r ∈ found →
     ∃ m, objs h !! r = Some m ∧
          Str.contains (Str.lower (content m)) (Str.lower query) = true ∧
          ∀ c, wanted = Some c → c ≠ EmptyString → category m = c) ∧
  found `sublist_of` items h (JSONBackend._memories self).
Proof.
  intros Hl found. subst found. unfold JSONBackend.search.
  split; [by apply slice_to_length|]. split.
  - intros r Hr. eapply sublist_elem_of in Hr; [|apply slice_to_sublist].
    apply elem_of_List_filter in Hr as [_ Hk].
    apply keep_true in Hk as (m & Hm & Hk). exists m. split; [done|].
    by apply matches_true.
  - etrans; [apply slice_to_sublist|apply filter_sublist].
Qed.

Lemma search_bounded_matching_ordered_witness :
  0 ≤ 1 ∧
  let found := JSONBackend.search Example.heap Example.file "PYTHON" (Some "semantic") 1 in
  Z.of_nat (length found) ≤ 1 ∧
  (∀ r, r ∈ found →
     ∃ m, objs Example.heap !! r = Some m ∧
          Str.contains (Str.lower (content m)) (Str.lower "PYTHON") = true ∧
          ∀ c, Some "semantic" = Some c → c ≠ EmptyString → category m = c) ∧
  found `sublist_of` items Example.heap (JSONBackend._memories Example.file).
Proof.
  split; [lia|].
  apply (search_bounded_matching_ordered Example.heap Example.file
           "PYTHON" (Some "semantic") 1). lia.
Defined.

(** C4 as stated fails twice.  With the limit -1 and two matching records
    the search returns one record, more than the limit; and with the empty
    string as category no record is filtered out, so the records returned
    are not of that category. *)
Lemma search_limit_and_category_counterexample :
  (let found := JSONBackend.search Example.heap Example.file "python" None (-1) in
   found = [0%nat] ∧ ¬ Z.of_nat (length found) ≤ -1) ∧
  (let found := JSONBackend.search Example.heap Example.file "python" (Some EmptyString) 5 in
   found = [0%nat; 1%nat] ∧
   objs Example.heap !! 0%nat = Some Example.python ∧
   category Example.python ≠ EmptyString).
Proof. vm_compute. repeat split; try done; lia. Qed.

(** ** The file backend: pagination *)

Lemma items_lookup (h : Heap) (r : lref) (l : list mref) :
  lists h !! r = Some l → items h r = l.
Proof. unfold items. by intros ->. Qed.

Lemma get_all_spec (h : Heap) (self : JSONBackend.t) (offset : Z) (limit : option Z) :
  let page :=
    let rest := slice_from (items h (JSONBackend._memories self)) offset in
    match limit with Some l => slice_to rest l | None => rest end in
  JSONBackend.get_all h self offset limit
  = (length (lists h), mkHeap (objs h) (lists h ++ [page])).
Proof. reflexivity. Qed.

Lemma get_all_fresh (h : Heap) (self : JSONBackend.t) (offset : Z) (limit : option Z)
    (stored : list mref) :
  lists h !! JSONBackend._memories self = Some stored →
  fresh_copy h (JSONBackend.get_all h self offset limit).2
    (JSONBackend._memories self) (JSONBackend.get_all h self offset limit).1.
Proof.
  intros Hs. pose proof (lookup_lt_Some _ _ _ Hs) as Hlt.
  rewrite get_all_spec. cbn [fst snd]. unfold fresh_copy, items, set_list. simpl.
  split; [apply lookup_ge_None; lia|]. split; [lia|]. split; [done|].
  split.
  - by rewrite lookup_app_l by lia.
  - intros changed. rewrite list_lookup_insert_ne by lia.
    by rewrite lookup_app_l by lia.
Qed.

Lemma get_all_items (h : Heap) (self : JSONBackend.t) (offset : Z) (limit : option Z) :
  items (JSONBackend.get_all h self offset limit).2
        (JSONBackend.get_all h self offset limit).1
  = let rest := slice_from (items h (JSONBackend._memories self)) offset in
    match limit with Some l => slice_to rest l | None => rest end.
Proof.
  rewrite get_all_spec. cbn [fst snd]. unfold items at 1. simpl.
  rewrite lookup_app_r by lia. by rewrite Nat.sub_diag.
Qed.

(** C10.  For an offset [o] and a limit [l] that are not negative, the list
    [get_all(o, l)] returns holds the stored references at the positions
    [o], ..., [o + l - 1], as far as they exist, and [get_all(o)] those from
    position [o] on.  The list returned is a new object: it is not the
    stored list, the stored list and all records are as before, and
    whatever is assigned to the new list leaves the stored list as it
    was. *)
Theorem get_all_is_a_fresh_slice
    (h : Heap) (self : JSONBackend.t) (o l : Z) (stored : list mref) :
  0 ≤ o → 0 ≤ l →
  lists h !! JSONBackend._memories self = Some stored →
  (∃ r h1,
     JSONBackend.get_all h self o (Some l) = (r, h1) ∧
     items h1 r = take (Z.to_nat l) (drop (Z.to_nat o) stored) ∧
     (∀ i : nat, items h1 r !! i =
        if decide (Z.of_nat i < l) then stored !! (Z.to_nat o + i)%nat else None) ∧
     fresh_copy h h1 (JSONBackend._memories self) r) ∧
  (∃ r h1,
     JSONBackend.get_all h self o None = (r, h1) ∧
     items h1 r = drop (Z.to_nat o) stored ∧
     (∀ i : nat, items h1 r !! i = stored !! (Z.to_nat o + i)%nat) ∧
     fresh_copy h h1 (JSONBackend._memories self) r).
Proof.
  intros Ho Hl Hs. split.
  - pose proof (get_all_fresh h self o (Some l) stored Hs) as Hf.
    pose proof (get_all_items h self o (Some l)) as Hi.
    destruct (JSONBackend.get_all h self o (Some l)) as [r h1]. cbn [fst snd] in *.
    exists r, h1. split; [done|].
    rewrite (items_lookup _ _ _ Hs) in Hi. simpl in Hi.
    rewrite slice_from_nonneg, slice_to_nonneg in Hi by done.
    split; [done|]. split; [|done].
    intros i. rewrite Hi. destruct (decide (Z.of_nat i < l)).
    + rewrite lookup_take_lt by lia. apply lookup_drop.
    + apply lookup_take_ge. lia.
  - pose proof (get_all_fresh h self o None stored Hs) as Hf.
    pose proof (get_all_items h self o None) as Hi.
    destruct (JSONBackend.get_all h self o None) as [r h1]. cbn [fst snd] in *.
    exists r, h1. split; [done|].
    rewrite (items_lookup _ _ _ Hs) in Hi. simpl in Hi.
    rewrite slice_from_nonneg in Hi by done.
    split; [done|]. split; [|done].
    intros i. rewrite Hi. apply lookup_drop.
Qed.

Lemma get_all_is_a_fresh_slice_witness :
  (∃ r h1,
     JSONBackend.get_all Example.heap Example.file 1 (Some 1) = (r, h1) ∧
     items h1 r = take (Z.to_nat 1) (drop (Z.to_nat 1) [0; 1; 2]%nat) ∧
     (∀ i : nat, items h1 r !! i =
        if decide (Z.of_nat i < 1) then [0; 1; 2]%nat !! (Z.to_nat 1 + i)%nat else None) ∧
     fresh_copy Example.heap h1 (JSONBackend._memories Example.file) r) ∧
  (∃ r h1,
     JSONBackend.get_all Example.heap Example.file 1 None = (r, h1) ∧
     items h1 r = drop (Z.to_nat 1) [0; 1; 2]%nat ∧
     (∀ i : nat, items h1 r !! i = [0; 1; 2]%nat !! (Z.to_nat 1 + i)%nat) ∧
     fresh_copy Example.heap h1 (JSONBackend._memories Example.file) r).
Proof.
  apply (get_all_is_a_fresh_slice Example.heap Example.file 1 1 [0; 1; 2]%nat);
    [lia | lia | reflexivity].
Defined.

(** ** Deleting by id *)

Section Delete.
Implicit Types (h : Heap) (l : list mref) (k : string).

Lemma without_absent k (ms : list Memory) : k ∉ id <$> ms → without k ms = ms.
Proof.
  unfold without. induction ms as [|m ms IH]; simpl; [done|].
  intros Hn. apply not_elem_of_cons in Hn as [Hk Hn].
  rewrite bool_decide_eq_false_2 by done. simpl. f_equal. by apply IH.
Qed.

Lemma has_id_true h k (r : mref) :
  JSONBackend.has_id h k r = true ↔ ∃ m, objs h !! r = Some m ∧ id m = k.
Proof.
  unfold JSONBackend.has_id. destruct (objs h !! r) as [m|]; split.
  - intros Hk%bool_decide_eq_true. by exists m.
  - intros (m' & [= <-] & Hk). by apply bool_decide_eq_true.
  - done.
  - by intros (m' & ? & _).
Qed.

Lemma first_index_absent h k l :
  k ∉ id <$> values h l → JSONBackend.first_index (JSONBackend.has_id h k) l = None.
Proof.
  unfold values. induction l as [|r l IH]; simpl; [done|].
  intros Hn. destruct (JSONBackend.has_id h k r) eqn:E.
  - apply has_id_true in E as (m & Hm & Hk). rewrite Hm in Hn. simpl in Hn.
    apply not_elem_of_cons in Hn as [Hn _]. by subst.
  - rewrite IH; [done|]. destruct (objs h !! r); simpl in Hn; [|done].
    by apply not_elem_of_cons in Hn as [_ Hn].
Qed.

Lemma first_index_present h k l :
  k ∈ id <$> values h l →
  NoDup (id <$> values h l) →
  ∃ i, JSONBackend.first_index (JSONBackend.has_id h k) l = Some i ∧
       values h (base.delete i l) = without k (values h l).
Proof.
  unfold values. induction l as [|r l IH]; simpl; [by intros ?%elem_of_nil|].
  intros Hi Hn. destruct (JSONBackend.has_id h k r) eqn:E.
  - exists O. split; [done|]. simpl.
    apply has_id_true in E as (m & Hm & Hk). rewrite Hm in Hn |- *. simpl in *.
    apply NoDup_cons in Hn as [Hn _]. unfold without at 1. simpl.
    rewrite bool_decide_eq_true_2 by done. simpl.
    symmetry. apply without_absent. by subst.
  - destruct (objs h !! r) as [m|] eqn:Hm; simpl in *.
    + assert (id m ≠ k) as Hk.
      { intros Hk. assert (JSONBackend.has_id h k r = true) as Ht; [|congruence].
        apply has_id_true. by exists m. }
      apply elem_of_cons in Hi as [Hi|Hi]; [done|].
      apply NoDup_cons in Hn as [_ Hn].
      destruct (IH Hi Hn) as (i & -> & Hv). exists (S i). split; [done|].
      simpl. rewrite Hm. simpl. unfold without at 1. simpl.
      rewrite bool_decide_eq_false_2 by done. simpl. f_equal. exact Hv.
    + destruct (IH Hi Hn) as (i & -> & Hv). exists (S i). split; [done|].
      simpl. by rewrite Hm.
Qed.

Lemma without_gone k (ms : list Memory) : k ∉ id <$> without k ms.
Proof.
  unfold without. intros (m & -> & Hm%list_elem_of_In%filter_In)%list_elem_of_fmap.
  destruct Hm as [_ Hm]. apply negb_true_iff, bool_decide_eq_false in Hm. done.
Qed.

Lemma file_get_all_records h (self : JSONBackend.t) :
  records (JSONBackend.get_all h self 0 None).2 (JSONBackend.get_all h self 0 None).1
  = records h (JSONBackend._memories self).
Proof.
  rewrite get_all_spec. cbn [fst snd]. unfold records, items, values. simpl.
  rewrite lookup_app_r by lia. rewrite Nat.sub_diag. simpl.
  unfold slice_from. simpl. by rewrite drop_0.
Qed.

Lemma file_delete_absent h (self : JSONBackend.t) k :
  k ∉ id <$> records h (JSONBackend._memories self) →
  JSONBackend.delete h self k = (false, h, self).
Proof.
  intros Hn. unfold JSONBackend.delete.
  by rewrite (first_index_absent h k _ Hn).
Qed.

Lemma file_delete_present h (self : JSONBackend.t) k :
  k ∈ id <$> records h (JSONBackend._memories self) →
  NoDup (id <$> records h (JSONBackend._memories self)) →
  ∃ h1 self1,
    JSONBackend.delete h self k = (true, h1, self1) ∧
    objs h1 = objs h ∧
    records h1 (JSONBackend._memories self1)
      = without k (records h (JSONBackend._memories self)) ∧
    JSONBackend.memory_file self1
      = JSONBackend.Holds (JSONBackend.envelope
          (without k (records h (JSONBackend._memories self)))).
Proof.
  intros Hi Hn. unfold JSONBackend.delete.
  destruct (first_index_present h k _ Hi Hn) as (i & -> & Hv).
  assert (is_Some (lists h !! JSONBackend._memories self)) as [stored Hs].
  { unfold records, items in Hi.
    destruct (lists h !! JSONBackend._memories self); [done|].
    by apply elem_of_nil in Hi. }
  pose proof (lookup_lt_Some _ _ _ Hs) as Hlt.
  assert (records (set_list h (JSONBackend._memories self)
                     (base.delete i (items h (JSONBackend._memories self))))
                  (JSONBackend._memories self)
          = without k (records h (JSONBackend._memories self))) as Hr.
  { unfold records in *. rewrite (items_lookup _ _ _ Hs) in *.
    unfold items, set_list. simpl.
    rewrite list_lookup_insert_eq by done. simpl. exact Hv. }
  unfold JSONBackend.save. eexists _, _. split; [reflexivity|].
  simpl. rewrite Hr. done.
Qed.

Section GraphDelete.
Context {G : Type} `{!GraphPort G}.
Implicit Types (cache : list (string * mref)).

Lemma dict_get_None {V : Type} k (d : list (string * V)) :
  dict_get k d = None ↔ k ∉ d.*1.
Proof.
  induction d as [|[k' v] d IH]; simpl.
  - split; [intros _; apply not_elem_of_nil|done].
  - destruct (decide (k' = k)) as [->|Hk].
    + split; [done|]. intros Hn. exfalso. apply Hn. by left.
    + rewrite IH, not_elem_of_cons. simpl. split; [intros ?; split; [by intros ->|done]|by intros [_ ?]].
Qed.

Lemma cache_ids h cache :
  Forall (λ kr, ∃ m, objs h !! kr.2 = Some m ∧ id m = kr.1) cache →
  id <$> values h (dict_values cache) = cache.*1.
Proof.
  unfold values, dict_values.
  induction 1 as [|[k r] cache (m & Hm & Hk) _ IH]; simpl in *; [done|].
  rewrite Hm. simpl. f_equal; [exact Hk|exact IH].
Qed.

Lemma cache_del_values h cache k :
  cache_ok h cache →
  values h (dict_values (dict_del k cache)) = without k (values h (dict_values cache)).
Proof.
  intros [Hn Hf]. induction Hf as [|[k' r] cache (m & Hm & Hk) Hf IH]; [done|].
  simpl in *. apply NoDup_cons in Hn as [Hk' Hn].
  unfold values, dict_values in *. simpl. rewrite Hm. simpl.
  unfold without at 1. simpl. destruct (decide (k' = k)) as [->|Hne].
  - rewrite bool_decide_eq_true_2 by done. simpl.
    symmetry. apply without_absent.
    pose proof (cache_ids h cache Hf) as Hi. unfold values, dict_values in Hi.
    by rewrite Hi.
  - rewrite bool_decide_eq_false_2 by congruence. simpl. rewrite Hm. simpl.
    f_equal. by apply IH.
Qed.

Lemma cache_del_gone {V : Type} k (d : list (string * V)) :
  NoDup d.*1 → k ∉ (dict_del k d).*1.
Proof.
  induction d as [|[k' v] d IH]; simpl; [intros _; apply not_elem_of_nil|].
  intros [Hk Hn]%NoDup_cons. destruct (decide (k' = k)) as [->|Hne]; [done|].
  simpl. apply not_elem_of_cons. split; [done|]. by apply IH.
Qed.

Lemma graph_get_all_records h (self : GraphBackend.t G) :
  records (GraphBackend.get_all h self 0 None).2 (GraphBackend.get_all h self 0 None).1
  = values h (dict_values (GraphBackend._memories_cache self)).
Proof.
  unfold GraphBackend.get_all. rewrite records_new_list.
  unfold slice_from. simpl. by rewrite drop_0.
Qed.

Lemma graph_delete_absent h (self : GraphBackend.t G) k :
  k ∉ (GraphBackend._memories_cache self).*1 →
  GraphBackend.delete h self k = (false, self).
Proof.
  intros Hn%dict_get_None. unfold GraphBackend.delete. by rewrite Hn.
Qed.

Lemma graph_delete_present h (self : GraphBackend.t G) k :
  k ∈ (GraphBackend._memories_cache self).*1 →
  ∃ g, GraphBackend.delete h self k
       = (true, GraphBackend.mk g (dict_del k (GraphBackend._memories_cache self))).
Proof.
  intros Hi. unfold GraphBackend.delete.
  destruct (dict_get k (GraphBackend._memories_cache self)) as [r|] eqn:E.
  - eexists. reflexivity.
  - by apply dict_get_None in E.
Qed.
End GraphDelete.
End Delete.

(** C9, amended.  In a store that holds no id twice, with either backend:
    [delete] of an id that is not there returns false and changes nothing;
    [delete] of an id that is there returns true, after which [get_all]
    lists the records as before without the one of that id, and the same
    [delete] once more returns false and changes nothing. *)
Theorem delete_by_id {G : Type} `{!GraphPort G}
    (h : Heap) (file : JSONBackend.t) (graph : GraphBackend.t G) (k : string) :
  NoDup (id <$> records h (JSONBackend._memories file)) →
  cache_ok h (GraphBackend._memories_cache graph) →
  ((k ∉ id <$> records h (JSONBackend._memories file) →
      JSONBackend.delete h file k = (false, h, file)) ∧
   (k ∈ id <$> records h (JSONBackend._memories file) →
      ∃ h1 file1 r h2,
        JSONBackend.delete h file k = (true, h1, file1) ∧
        JSONBackend.get_all h1 file1 0 None = (r, h2) ∧
        records h2 r = without k (records h (JSONBackend._memories file)) ∧
        JSONBackend.delete h1 file1 k = (false, h1, file1))) ∧
  ((k ∉ (GraphBackend._memories_cache graph).*1 →
      GraphBackend.delete h graph k = (false, graph)) ∧
   (k ∈ (GraphBackend._memories_cache graph).*1 →
      ∃ graph1 r h2,
        GraphBackend.delete h graph k = (true, graph1) ∧
        GraphBackend.get_all h graph1 0 None = (r, h2) ∧
        records h2 r
          = without k (values h (dict_values (GraphBackend._memories_cache graph))) ∧
        GraphBackend.delete h graph1 k = (false, graph1))).
Proof.
  intros Hn Hc. split; split.
  - apply file_delete_absent.
  - intros Hi.
    destruct (file_delete_present h file k Hi Hn) as (h1 & file1 & Hd & Ho & Hr & _).
    pose proof (file_get_all_records h1 file1) as Hg.
    destruct (JSONBackend.get_all h1 file1 0 None) as [r h2] eqn:E.
    exists h1, file1, r, h2. cbn [fst snd] in Hg.
    split; [done|]. split; [done|]. split; [by rewrite Hg|].
    apply file_delete_absent. rewrite Hr. apply without_gone.
  - apply graph_delete_absent.
  - intros Hi. destruct (graph_delete_present h graph k Hi) as [g Hd].
    pose proof (graph_get_all_records h
      (GraphBackend.mk g (dict_del k (GraphBackend._memories_cache graph)))) as Hg.
    destruct (GraphBackend.get_all h _ 0 None) as [r h2] eqn:E.
    eexists _, r, h2. split; [exact Hd|]. split; [exact E|].
    cbn [fst snd] in Hg. split.
    + rewrite Hg. simpl. by apply cache_del_values.
    + apply graph_delete_absent. simpl. apply cache_del_gone. apply Hc.
Qed.

Lemma delete_by_id_witness :
  let k := "5f0c2a9d13e7" in
  let cache := [("86ae17553dc1", 0%nat); (k, 1%nat)] in
  let graph : GraphBackend.t TripleStore.t := GraphBackend.mk [] cache in
  (∃ h1 file1 r h2,
     JSONBackend.delete Example.heap Example.file k = (true, h1, file1) ∧
     JSONBackend.get_all h1 file1 0 None = (r, h2) ∧
     records h2 r = without k (records Example.heap (JSONBackend._memories Example.file)) ∧
     JSONBackend.delete h1 file1 k = (false, h1, file1)) ∧
  (∃ graph1 r h2,
     GraphBackend.delete Example.heap graph k = (true, graph1) ∧
     GraphBackend.get_all Example.heap graph1 0 None = (r, h2) ∧
     records h2 r = without k (values Example.heap (dict_values cache)) ∧
     GraphBackend.delete Example.heap graph1 k = (false, graph1)).
Proof.
  intros k cache graph.
  destruct (delete_by_id Example.heap Example.file graph k) as [[_ Hf] [_ Hg]].
  - apply (bool_decide_unpack _). vm_compute. exact I.
  - split.
    + apply (bool_decide_unpack _). vm_compute. exact I.
    + repeat constructor; eexists; split; reflexivity.
  - split.
    + apply Hf. apply (bool_decide_unpack _). vm_compute. exact I.
    + apply Hg. apply (bool_decide_unpack _). vm_compute. exact I.
Defined.

(** C9 as stated fails for the file backend when two records carry one id:
    [delete] removes the first of them only, so [get_all] still lists a
    record of that id and the same [delete] once more returns true. *)
Lemma delete_twice_counterexample :
  let k := "b4733e76ada6" in
  ∃ h1 file1 r h2 h3 file2,
    JSONBackend.delete Twins.heap Twins.file k = (true, h1, file1) ∧
    JSONBackend.get_all h1 file1 0 None = (r, h2) ∧
    records h2 r = [Twins.second] ∧
    id Twins.second = k ∧
    JSONBackend.delete h1 file1 k = (true, h3, file2).
Proof. vm_compute. by eexists _, _, _, _, _, _. Qed.

(** ** Entity extraction *)

Section Entities.
Import GraphBackend.

Lemma append_cons (x : ascii) (a b : string) : String x a +:+ b = String x (a +:+ b).
Proof. reflexivity. Qed.

Lemma append_assoc (a b c : string) : (a +:+ b) +:+ c = a +:+ (b +:+ c).
Proof. induction a as [|x a IH]; [done|]. by rewrite !append_cons, IH. Qed.

Lemma rev_app_append (a b c : string) :
  String.rev_app a (b +:+ c) = String.rev_app a b +:+ c.
Proof. revert b. induction a as [|x a IH]; intros b; simpl; [done|]. apply (IH (String x b)). Qed.

Lemma mem_rev_app (x : ascii) (a b : string) :
  Str.mem x (String.rev_app a b) = Str.mem x a || Str.mem x b.
Proof.
  revert b. induction a as [|y a IH]; intros b; simpl; [done|].
  rewrite IH. simpl. destruct (decide (y = x)); simpl.
  - by rewrite orb_true_r.
  - done.
Qed.

Lemma double_quoted_later (c : ascii) (content q : string) :
  double_quoted content q → double_quoted (String c content) q.
Proof.
  intros (pre & post & -> & Hq & Hm). by exists (String c pre), post.
Qed.

Lemma rev_app_rev (a b : string) : String.rev_app a b = String.rev a +:+ b.
Proof. unfold String.rev. by rewrite <- rev_app_append. Qed.

Lemma rev_nonempty (c : ascii) (a : string) : String.rev (String c a) ≠ EmptyString.
Proof.
  intros He.
  assert (Str.mem c (String.rev (String c a)) = true) as Hm.
  { unfold String.rev. rewrite mem_rev_app. simpl. by rewrite decide_True. }
  by rewrite He in Hm.
Qed.

Lemma findall_go_sound (s : string) : ∀ (open : option string) (x : string),
  (∀ acc, open = Some acc → Str.mem quote acc = false) →
  x ∈ findall_go open s → double_quoted (scanned open s) x.
Proof.
  induction s as [|c s IH]; intros open x Hacc; cbn [findall_go];
    [by intros ?%elem_of_nil|].
  destruct (decide (c = "034"%char)) as [->|Hc].
  - destruct open as [[|a acc]|].
    + intros Hx. apply (IH (Some EmptyString)) in Hx; [|by intros ? [= <-]].
      by apply double_quoted_later.
    + unfold scanned. rewrite rev_app_rev.
      intros [->|Hx]%elem_of_cons.
      * exists EmptyString, s. split; [done|]. split; [apply rev_nonempty|].
        unfold String.rev. rewrite mem_rev_app, (Hacc _ eq_refl). done.
      * apply (IH None) in Hx; [|done].
        destruct Hx as (pre & post & Hs & Hq & Hm). simpl in Hs. subst s.
        exists (String quote (String.rev (String a acc) +:+ String quote pre)), post.
        split; [|done]. by rewrite append_cons, append_assoc, append_cons.
    + intros Hx. by apply (IH (Some EmptyString)) in Hx; [|by intros ? [= <-]].
  - destruct open as [acc|].
    + intros Hx. apply (IH (Some (String c acc))) in Hx; [done|].
      intros ? [= <-]. simpl. rewrite decide_False by done. by apply Hacc.
    + intros Hx. apply (IH None) in Hx; [|done]. by apply double_quoted_later.
Qed.

Lemma findall_quoted_sound (content x : string) :
  x ∈ findall_quoted content → double_quoted content x.
Proof. apply (findall_go_sound content None x). done. Qed.

Lemma is_entity_word_spec (x : string) :
  is_entity_word x = true ↔ entity_word x.
Proof.
  unfold is_entity_word, entity_word. destruct x as [|c rest].
  - split; [done|]. by intros (? & ? & ? & _).
  - rewrite !andb_true_iff, negb_true_iff, bool_decide_eq_true, bool_decide_eq_false.
    split.
    + intros [[Hu Hl] Hs]. by exists c, rest.
    + intros (c' & rest' & [= <- <-] & Hu & Hl & Hs). done.
Qed.

(** The entities of a content are, without repetition, the strings the
    scan for quoted text finds, each of which stands between two double
    quotes of the content, and the words of the content that, once the
    punctuation around them is stripped, begin with an upper case letter,
    are longer than one character and are not, in lower case, in the
    stoplist. *)
Lemma extract_entities_members (content : string) :
  NoDup (_extract_entities content) ∧
  (∀ x, x ∈ _extract_entities content ↔
        x ∈ findall_quoted content ∨
        ∃ word, word ∈ Str.split content ∧
                x = Str.strip punctuation word ∧ entity_word x) ∧
  (∀ x, x ∈ findall_quoted content → double_quoted content x).
Proof.
  split; [unfold _extract_entities; apply NoDup_elements|].
  split; [|apply findall_quoted_sound].
  intros x. unfold _extract_entities, capitalized.
  rewrite elem_of_elements, elem_of_list_to_set, elem_of_app.
  rewrite elem_of_List_filter, is_entity_word_spec.
  split.
  - intros [Hq|[Hw He]]; [by left|right].
    apply list_elem_of_In, in_map_iff in Hw as (word & <- & Hi).
    exists word. split; [by apply list_elem_of_In|done].
  - intros [Hq|(word & Hi & -> & He)]; [by left|right]. split; [|done].
    apply list_elem_of_In, in_map_iff. exists word.
    split; [done|by apply list_elem_of_In].
Qed.

Lemma findall_go_quoted_go (s : string) : ∀ open : option string,
  EmptyString ∉ quoted_go open s → findall_go open s = quoted_go open s.
Proof.
  induction s as [|c s IH]; intros open; cbn [findall_go quoted_go]; [done|].
  unfold quote. destruct (decide (c = "034"%char)) as [->|Hc].
  - destruct open as [[|a acc]|].
    + intros Hn. exfalso. apply Hn. by left.
    + intros [_ Hn]%not_elem_of_cons. f_equal. by apply IH.
    + apply IH.
  - destruct open as [acc|]; apply IH.
Qed.

(** Where no pair of quotes is empty, the scan finds the quoted strings:
    all of them, in the order of the text. *)
Lemma findall_finds_quoted_strings (content : string) :
  EmptyString ∉ quoted_strings content →
  findall_quoted content = quoted_strings content.
Proof. apply findall_go_quoted_go. Qed.

(** Where no pair of quotes is empty, the entities are the quoted strings
    and the capitalized words. *)
Lemma extract_entities_of_quoted (content x : string) :
  EmptyString ∉ quoted_strings content →
  x ∈ _extract_entities content ↔
  x ∈ quoted_strings content ∨
  ∃ word, word ∈ Str.split content ∧
          x = Str.strip punctuation word ∧ entity_word x.
Proof.
  intros Hn. rewrite <- (findall_finds_quoted_strings content Hn).
  apply extract_entities_members.
Qed.

(** C5.  Where a pair of quotes is empty, the entities are not the quoted
    strings.  In [He typed "" and then "Python"] the quoted strings are the
    empty one and [Python]; the scan pairs the second quote with the third,
    and the entities are the text between them and the word [He]: [Python]
    is not among them.  The shift lasts to the end of the text: in
    [He typed "" and then "Python" or "Rust"] the entities are the texts
    between the quoted words, and neither [Python] nor [Rust].  In
    [User prefers "Python" over "Rust"], without an empty pair, the
    entities are the two quoted words. *)
Theorem extract_entities_misses_quoted_text :
  (quoted_strings Quoting.content = [EmptyString; "Python"] ∧
   findall_quoted Quoting.content = [" and then "] ∧
   ∀ x, x ∈ _extract_entities Quoting.content ↔ x ∈ [" and then "; "He"]) ∧
  (quoted_strings Quoting.longer = [EmptyString; "Python"; "Rust"] ∧
   findall_quoted Quoting.longer = [" and then "; " or "] ∧
   ∀ x, x ∈ _extract_entities Quoting.longer ↔ x ∈ [" and then "; " or "; "He"]) ∧
  (quoted_strings Quoting.plain = ["Python"; "Rust"] ∧
   ∀ x, x ∈ _extract_entities Quoting.plain ↔ x ∈ ["Python"; "Rust"]).
Proof.
  assert (∀ content l,
            findall_quoted content ++ capitalized content = l →
            ∀ x, x ∈ _extract_entities content ↔ x ∈ l) as Hall.
  { intros content l <- x. unfold _extract_entities.
    by rewrite elem_of_elements, elem_of_list_to_set. }
  split; [|split].
  - split; [by vm_compute|]. split; [by vm_compute|].
    apply Hall. by vm_compute.
  - split; [by vm_compute|]. split; [by vm_compute|].
    apply Hall. by vm_compute.
  - split; [by vm_compute|]. apply Hall. by vm_compute.
Qed.
End Entities.

(** ** Related memories *)

Lemma remove_go_absent (p s : string) :
  Str.contains s p = false → Str.remove_go p O s = s.
Proof.
  induction s as [|c s IH]; [done|].
  cbn [Str.contains Str.remove_go]. intros [Hs Hc]%orb_false_iff.
  rewrite Hs. f_equal. by apply IH.
Qed.

Lemma remove_go_skip (p pre s : string) :
  Str.remove_go p (String.length pre) (pre +:+ s) = Str.remove_go p O s.
Proof. induction pre as [|c pre IH]; [by destruct s|]. exact IH. Qed.

Lemma startswith_append (p s : string) : Str.startswith (p +:+ s) p = true.
Proof.
  induction p as [|c p IH]; [by destruct s|].
  rewrite append_cons. cbn [Str.startswith]. by rewrite decide_True.
Qed.

Lemma remove_prefix (p s : string) :
  p ≠ EmptyString → Str.contains s p = false → Str.remove p (p +:+ s) = s.
Proof.
  intros Hp Hs. destruct p as [|c p]; [done|].
  unfold Str.remove. rewrite append_cons. cbn [Str.remove_go].
  rewrite <- append_cons, startswith_append. cbn [String.length Nat.pred].
  rewrite remove_go_skip. by apply remove_go_absent.
Qed.

(** The id read off the node of a memory is its id, when the id does not
    hold the text of the prefix. *)
Lemma id_of_memory_node (k : string) :
  Str.contains k "memory:" = false →
  id_of_node (GraphBackend.memory_node k) = k.
Proof. intros Hk. by apply remove_prefix. Qed.

Section Related.
Context {G : Type} `{!GraphPort G}.
Import GraphBackend.
Implicit Types (g : G) (self : GraphBackend.t G).

Lemma elem_of_memory_ids (nodes : list string) (mid : string) :
  mid ∈ memory_ids nodes ↔
  ∃ node, node ∈ nodes ∧ Str.startswith node "memory:" = true ∧ mid = id_of_node node.
Proof.
  unfold memory_ids. rewrite list_elem_of_In, in_map_iff. split.
  - intros (node & <- & [Hi Hs]%filter_In). exists node.
    split; [by apply list_elem_of_In|done].
  - intros (node & Hi%list_elem_of_In & Hs & ->). exists node.
    split; [done|]. by apply filter_In.
Qed.

Lemma elem_of_direct_ids g (query mid : string) :
  mid ∈ direct_ids g query ↔ ∃ node, direct_node g query node ∧ mid = id_of_node node.
Proof.
  unfold direct_ids, direct_node.
  rewrite elem_of_list_to_set, elem_of_memory_ids. split.
  - intros (node & Hi & Hs & ->). by exists node.
  - intros (node & [Hs Hi] & ->). by exists node.
Qed.

Lemma elem_of_hop_ids g (query mid : string) :
  mid ∈ concat (map (hop_ids g) (elements (direct_ids g query))) ↔
  ∃ node, second_node g query node ∧ mid = id_of_node node.
Proof.
  rewrite list_elem_of_In, in_concat. split.
  - intros (ids & (first_id & <- & Hf)%in_map_iff & Hm).
    apply list_elem_of_In, elem_of_elements, elem_of_direct_ids in Hf
      as (first & Hd & ->).
    unfold hop_ids in Hm. apply in_concat in Hm as (ids & Hi & Hm).
    apply in_map_iff in Hi as (ent & <- & [Hi He]%filter_In).
    apply list_elem_of_In, elem_of_memory_ids in Hm as (node & Hn & Hs & ->).
    exists node. split; [|done]. split; [done|]. exists first, ent.
    split; [done|]. split; [by apply list_elem_of_In|done].
  - intros (node & (Hs & first & ent & Hd & Ho & He & Hn) & ->).
    exists (hop_ids g (id_of_node first)). split.
    + apply in_map_iff. exists (id_of_node first). split; [done|].
      apply list_elem_of_In, elem_of_elements, elem_of_direct_ids. by exists first.
    + unfold hop_ids. apply in_concat.
      exists (memory_ids (Port.inc_all g ent "MENTIONS")). split.
      * apply in_map_iff. exists ent. split; [done|]. apply filter_In.
        split; [by apply list_elem_of_In|done].
      * apply list_elem_of_In, elem_of_memory_ids. by exists node.
Qed.

Lemma elem_of_find_related self (query : string) (depth : Z) (r : mref) :
  r ∈ find_related self query depth ↔
  ∃ mid, mid ∈ related_ids (_graph self) query depth ∧
         dict_get mid (_memories_cache self) = Some r.
Proof.
  unfold find_related. rewrite list_elem_of_omap.
  by setoid_rewrite elem_of_elements.
Qed.

(** C6, amended.  [find_related] returns the cached memories whose id is
    read off a node of the following kind, and no others.  For a depth of
    at most 1: a memory node with a [MENTIONS] edge to the entity keyed by
    the query in lower case.  For a depth of 2 or more: such a node, or a
    memory node with a [MENTIONS] edge to an entity mentioned from the
    node of a first-hop id, whether or not a memory is still cached under
    that id.  Any depth above 2 gives the list that depth 2 gives. *)
Theorem find_related_hops self (query : string) (depth : Z) :
  (depth ≤ 1 →
     ∀ r, r ∈ find_related self query depth ↔
          ∃ node, direct_node (_graph self) query node ∧
                  dict_get (id_of_node node) (_memories_cache self) = Some r) ∧
  (2 ≤ depth →
     (∀ r, r ∈ find_related self query depth ↔
           ∃ node, (direct_node (_graph self) query node ∨
                    second_node (_graph self) query node) ∧
                   dict_get (id_of_node node) (_memories_cache self) = Some r) ∧
     find_related self query depth = find_related self query 2).
Proof.
  split.
  - intros Hd r. rewrite elem_of_find_related. unfold related_ids.
    destruct (Z.ltb_spec 1 depth) as [?|_]; [lia|].
    split.
    + intros (mid & (node & Hn & ->)%elem_of_direct_ids & Hg). by exists node.
    + intros (node & Hn & Hg). exists (id_of_node node). split; [|done].
      apply elem_of_direct_ids. by exists node.
  - intros Hd. split.
    + intros r. rewrite elem_of_find_related. unfold related_ids.
      destruct (Z.ltb_spec 1 depth) as [_|?]; [|lia].
      split.
      * intros (mid & Hm & Hg). apply elem_of_union in Hm as [Hm|Hm].
        -- apply elem_of_direct_ids in Hm as (node & Hn & ->).
           exists node. split; [by left|done].
        -- apply elem_of_list_to_set, elem_of_hop_ids in Hm as (node & Hn & ->).
           exists node. split; [by right|done].
      * intros (node & [Hn|Hn] & Hg); exists (id_of_node node);
          (split; [|done]); apply elem_of_union; [left|right].
        -- apply elem_of_direct_ids. by exists node.
        -- apply elem_of_list_to_set, elem_of_hop_ids. by exists node.
    + unfold find_related, related_ids.
      by destruct (Z.ltb_spec 1 depth) as [_|?]; [|lia].
Qed.
End Related.

Lemma find_related_hops_witness :
  GraphBackend.add Orphan.heap Orphan.empty 0%nat = Returns (Orphan.added Orphan.empty 0%nat) ∧
  GraphBackend.add Orphan.heap (Orphan.added Orphan.empty 0%nat) 1%nat = Returns Orphan.two ∧
  (1 ≤ 1 →
     ∀ r, r ∈ GraphBackend.find_related Orphan.two "Python" 1 ↔
          ∃ node, direct_node (GraphBackend._graph Orphan.two) "Python" node ∧
                  dict_get (id_of_node node) (GraphBackend._memories_cache Orphan.two)
                  = Some r) ∧
  (2 ≤ 3 →
     (∀ r, r ∈ GraphBackend.find_related Orphan.two "Python" 3 ↔
           ∃ node, (direct_node (GraphBackend._graph Orphan.two) "Python" node ∨
                    second_node (GraphBackend._graph Orphan.two) "Python" node) ∧
                   dict_get (id_of_node node) (GraphBackend._memories_cache Orphan.two)
                   = Some r) ∧
     GraphBackend.find_related Orphan.two "Python" 3
     = GraphBackend.find_related Orphan.two "Python" 2) ∧
  GraphBackend.find_related Orphan.two "Python" 1 = [0%nat] ∧
  length (GraphBackend.find_related Orphan.two "Python" 3) = 2%nat.
Proof.
  split; [vm_compute; reflexivity|]. split; [vm_compute; reflexivity|].
  split; [apply (find_related_hops Orphan.two "Python" 1)|].
  split; [apply (find_related_hops Orphan.two "Python" 3)|].
  split; vm_compute; reflexivity.
Defined.

(** C6 as stated fails after a deletion.  The first memory mentions Python
    and Rust, the second Rust.  Once the first is deleted its [MENTIONS]
    edges are still in the graph: at depth 1 the query Python finds no
    memory, yet at depth 2 it finds the second one, which is neither a
    depth-1 result nor reached from one. *)
Lemma find_related_orphan_counterexample :
  GraphBackend.add Orphan.heap Orphan.empty 0%nat = Returns (Orphan.added Orphan.empty 0%nat) ∧
  GraphBackend.add Orphan.heap (Orphan.added Orphan.empty 0%nat) 1%nat = Returns Orphan.two ∧
  GraphBackend.delete Orphan.heap Orphan.two "0a1b2c3d4e5f" = (true, Orphan.one) ∧
  GraphBackend.find_related Orphan.one "Python" 1 = [] ∧
  GraphBackend.find_related Orphan.one "Python" 2 = [1%nat] ∧
  ¬ (∀ r, r ∈ GraphBackend.find_related Orphan.one "Python" 2 →
          r ∈ GraphBackend.find_related Orphan.one "Python" 1 ∨
          ∃ r1, r1 ∈ GraphBackend.find_related Orphan.one "Python" 1).
Proof.
  assert (GraphBackend.find_related Orphan.one "Python" 1 = []) as H1
    by (vm_compute; reflexivity).
  assert (GraphBackend.find_related Orphan.one "Python" 2 = [1%nat]) as H2
    by (vm_compute; reflexivity).
  split; [vm_compute; reflexivity|]. split; [vm_compute; reflexivity|]. split; [vm_compute; reflexivity|].
  split; [exact H1|]. split; [exact H2|].
  intros Hc. destruct (Hc 1%nat) as [Hr|[r1 Hr]].
  - rewrite H2. by left.
  - rewrite H1 in Hr. by apply elem_of_nil in Hr.
  - rewrite H1 in Hr. by apply elem_of_nil in Hr.
Qed.

(** ** Ids *)

Section Ids.
Context {G : Type} `{!GraphPort G}.
Implicit Types (h : Heap) (self : @MemoryStore.t G).

Lemma store_new_created h self (m : Memory) :
  is_Some (GraphBackend.steps_of m) →
  created (MemoryStore.store_new h self m) = Some m.
Proof.
  intros [steps Hs]. unfold MemoryStore.store_new, new_memory.
  destruct self as [[j|g]]; simpl.
  - unfold JSONBackend.add, JSONBackend.save, set_list. simpl.
    rewrite lookup_app_r by lia. by rewrite Nat.sub_diag.
  - unfold GraphBackend.add. simpl.
    rewrite lookup_app_r by lia. rewrite Nat.sub_diag. simpl.
    unfold GraphBackend.add_record. rewrite Hs. simpl.
    rewrite lookup_app_r by lia. by rewrite Nat.sub_diag.
Qed.

Lemma dict_get_set_ne {V : Type} (k k' : string) (v : V) (d : list (string * V)) :
  k ≠ k' → dict_get k (dict_set k' v d) = dict_get k d.
Proof.
  intros Hk. induction d as [|[k0 v0] d IH]; simpl.
  - by rewrite decide_False.
  - destruct (decide (k0 = k')) as [->|Hn]; simpl.
    + by rewrite !decide_False.
    + by rewrite IH.
Qed.

Lemma dict_get_with_kwargs (k : string) (metadata : list (string * json)) :
  ∀ entries, dict_get k metadata = None →
  dict_get k (MemoryStore.with_kwargs entries metadata) = dict_get k entries.
Proof.
  unfold MemoryStore.with_kwargs.
  induction metadata as [|[k0 v0] md IH]; intros entries; simpl; [done|].
  destruct (decide (k0 = k)) as [->|Hk]; [done|]. intros Hn.
  rewrite IH by done. by apply dict_get_set_ne.
Qed.

Lemma strings_of_strings (steps : list string) :
  GraphBackend.strings_of (map JStr steps) = Some steps.
Proof. induction steps as [|s steps IH]; simpl; [done|]. by rewrite IH. Qed.

Lemma substring_length (s : string) : ∀ n : nat,
  (n ≤ String.length s)%nat → String.length (String.substring 0 n s) = n.
Proof.
  induction s as [|c s IH]; intros [|n] Hn; simpl in *; try done; try lia.
  f_equal. apply IH. lia.
Qed.

Lemma string_of_list_length (l : list ascii) :
  String.length (string_of_list_ascii l) = length l.
Proof. induction l as [|c l IH]; simpl; [done|]. by rewrite IH. Qed.

Lemma hexdigest_length (s : SHA256.state) :
  String.length (SHA256.hexdigest s) = 64%nat.
Proof. unfold SHA256.hexdigest. by rewrite string_of_list_length. Qed.

Lemma fingerprint_length (text : string) : String.length (fingerprint text) = 12%nat.
Proof.
  unfold fingerprint, Str.take. apply substring_length.
  rewrite hexdigest_length. lia.
Qed.

Lemma encode_inj (s t : string) : SHA256.encode s = SHA256.encode t → s = t.
Proof.
  revert t. induction s as [|c s IH]; intros [|d t]; simpl; try done.
  intros [= Hc Hs]. f_equal; [|by apply IH].
  apply N2Z.inj in Hc. rewrite <- (ascii_N_embedding c), <- (ascii_N_embedding d).
  by rewrite Hc.
Qed.

(** C7, amended.  A fact or an episode gets as id the first twelve
    characters of the hexadecimal SHA-256 digest of its content followed by
    the timestamp [_generate_id] reads; a procedure gets those of its name,
    and not of its content, followed by that timestamp.  An id has twelve
    characters.  For one content, two different timestamps give two
    different texts to hash. *)
Theorem facade_ids h self (now timestamp text : string)
    (steps : list string) (metadata : list (string * json)) (t1 t2 : string) :
  dict_get "steps" metadata = None →
  t1 ≠ t2 →
  created (MemoryStore.add_fact h self now timestamp text metadata)
    = Some (mkMemory (fingerprint (text +:+ timestamp)) text "semantic" now now metadata) ∧
  created (MemoryStore.add_episode h self now timestamp text metadata)
    = Some (mkMemory (fingerprint (text +:+ timestamp)) text "episodic" now now
              (MemoryStore.with_kwargs [("timestamp", JStr now)] metadata)) ∧
  created (MemoryStore.add_procedure h self now timestamp text steps metadata)
    = Some (mkMemory (fingerprint (text +:+ timestamp))
              (MemoryStore.procedure_text text steps) "procedural" now now
              (MemoryStore.with_kwargs
                 [("procedure_name", JStr text); ("steps", JArr (map JStr steps))]
                 metadata)) ∧
  String.length (MemoryStore._generate_id timestamp text) = 12%nat ∧
  SHA256.encode (text +:+ t1) ≠ SHA256.encode (text +:+ t2).
Proof.
  intros Hm Ht. split; [|split; [|split; [|split]]].
  - by apply store_new_created.
  - by apply store_new_created.
  - apply store_new_created. unfold GraphBackend.steps_of. simpl.
    rewrite dict_get_with_kwargs by done. simpl.
    rewrite strings_of_strings. done.
  - apply fingerprint_length.
  - intros He%encode_inj. by apply (inj (String.app text)) in He.
Qed.
End Ids.

Lemma facade_ids_witness :
  let self : @MemoryStore.t TripleStore.t :=
    MemoryStore.mk (MemoryStore.Graph Example.graph) in
  let now := "2024-03-01T12:00:00.000001" in
  let timestamp := "2024-03-01T12:00:00.000004" in
  created (MemoryStore.add_fact Example.heap self now timestamp "deploy" [])
    = Some (mkMemory (fingerprint ("deploy" +:+ timestamp)) "deploy" "semantic" now now []) ∧
  created (MemoryStore.add_episode Example.heap self now timestamp "deploy" [])
    = Some (mkMemory (fingerprint ("deploy" +:+ timestamp)) "deploy" "episodic" now now
              (MemoryStore.with_kwargs [("timestamp", JStr now)] [])) ∧
  created (MemoryStore.add_procedure Example.heap self now timestamp "deploy"
             ["test"; "build"; "push"] [])
    = Some (mkMemory (fingerprint ("deploy" +:+ timestamp))
              (MemoryStore.procedure_text "deploy" ["test"; "build"; "push"])
              "procedural" now now
              (MemoryStore.with_kwargs
                 [("procedure_name", JStr "deploy");
                  ("steps", JArr (map JStr ["test"; "build"; "push"]))] [])) ∧
  String.length (MemoryStore._generate_id timestamp "deploy") = 12%nat ∧
  SHA256.encode ("deploy" +:+ now) ≠ SHA256.encode ("deploy" +:+ timestamp).
Proof.
  intros self now timestamp.
  apply (facade_ids Example.heap self now timestamp "deploy"
           ["test"; "build"; "push"] [] now timestamp).
  - reflexivity.
  - by vm_compute.
Defined.

(** C7 as stated fails twice.  The id of a procedure is made from its name,
    not from its content.  And two timestamps can give one id: the fact
    [User prefers Python] gets the id [b4733e76ada6] at both of the
    timestamps below. *)
Lemma facade_ids_counterexample :
  (let self : @MemoryStore.t TripleStore.t :=
     MemoryStore.mk (MemoryStore.Json Example.file) in
   let now := "2024-03-01T12:00:00.000001" in
   let timestamp := "2024-03-01T12:00:00.000004" in
   ∃ m,
     created (MemoryStore.add_procedure Example.heap self now timestamp "deploy"
                ["test"; "build"; "push"] []) = Some m ∧
     id m = "04cda009fdec" ∧
     fingerprint (content m +:+ timestamp) = "57a3fda7c433" ∧
     id m ≠ fingerprint (content m +:+ timestamp)) ∧
  (let t1 := "2023-08-11T09:23:40.822433" in
   let t2 := "2025-01-12T21:21:35.290863" in
   t1 ≠ t2 ∧
   MemoryStore._generate_id t1 "User prefers Python" = "b4733e76ada6" ∧
   MemoryStore._generate_id t2 "User prefers Python" = "b4733e76ada6").
Proof.
  split.
  - eexists. split; [vm_compute; reflexivity|]. vm_compute. repeat split; done.
  - vm_compute. repeat split; done.
Qed.

(** ** Updating a fact *)

Section Update.
Context {G : Type} `{!GraphPort G}.
Implicit Types (h : Heap) (b : @MemoryStore.backend G) (self : @MemoryStore.t G).



Lemma slice_from_0 {A : Type} (l : list A) : slice_from l 0 = l.
Proof. unfold slice_from. simpl. apply drop_0. Qed.

Lemma memories_spec h self :
  MemoryStore.memories h self
  = (length (lists h),
     mkHeap (objs h) (lists h ++ [stored h (MemoryStore._backend self)])).
Proof.
  unfold MemoryStore.memories, MemoryStore.backend_get_all, stored.
  destruct (MemoryStore._backend self) as [j|g].
  - rewrite get_all_spec. simpl. by rewrite slice_from_0.
  - unfold GraphBackend.get_all. by rewrite slice_from_0.
Qed.







End Update.


(** * Further properties *)

(** ** Records and dictionaries *)

(** X1.  A dictionary without one of the five fields that have no default,
    or with a key that is no field, does not decode: the constructor call
    raises.  And what [to_dict] writes, [from_dict] reads back. *)
Theorem from_dict_checks_keys (d : list (string * json)) (k : string) (m : Memory) :
  (k ∈ required_names → dict_get k d = None → from_dict (JObj d) = BadCall) ∧
  (k ∉ field_names → dict_has k d = true → from_dict (JObj d) = BadCall) ∧
  from_dict (to_dict m) = Decoded m ∧
  (∀ v, from_dict v = Decoded m → ∃ d', v = JObj d' ∧
        dict_get "id" d' = Some (JStr (id m)) ∧
        dict_get "content" d' = Some (JStr (content m)) ∧
        dict_get "category" d' = Some (JStr (category m))).
Proof.
  split; [|split; [|split]].
  - intros Hk Hn. unfold from_dict.
    assert (forallb (λ k0, dict_has k0 d) required_names = false) as ->.
    { apply not_true_iff_false. intros Hf.
      rewrite forallb_forall in Hf. specialize (Hf k).
      unfold dict_has in Hf. rewrite Hn in Hf.
      apply list_elem_of_In in Hk. by apply Hf in Hk. }
    by rewrite andb_false_r.
  - intros Hk Hh. unfold from_dict.
    assert (forallb (λ kv : string * json, is_field kv.1) d = false) as ->; [|done].
    apply not_true_iff_false. intros Hf. rewrite forallb_forall in Hf.
    unfold dict_has in Hh. destruct (dict_get k d) as [v|] eqn:E; [|done].
    assert (In (k, v) d) as Hi.
    { clear -E. induction d as [|[k' v'] d IH]; simpl in *; [done|].
      destruct (decide (k' = k)) as [->|]; [left; congruence|right; auto]. }
    apply Hf in Hi. simpl in Hi. unfold is_field in Hi.
    by apply bool_decide_eq_true in Hi.
  - apply from_dict_to_dict.
  - intros v Hv. destruct v as [| | | | |d']; try done. exists d'. split; [done|].
    unfold from_dict in Hv.
    destruct (forallb _ d' && forallb _ required_names); [|done].
    destruct (dict_get "id" d') as [[| | |i| |]|]; try done.
    destruct (dict_get "content" d') as [[| | |c| |]|]; try done.
    destruct (dict_get "category" d') as [[| | |g| |]|]; try done.
    destruct (dict_get "created_at" d') as [[| | |t| |]|]; try done.
    destruct (dict_get "updated_at" d') as [[| | |u| |]|]; try done.
    destruct (dict_get "metadata" d') as [[| | | | |md]|]; try done;
      by injection Hv as <-.
Qed.

Lemma from_dict_checks_keys_witness :
  from_dict (JObj [("id", JStr "a1"); ("content", JStr "x")]) = BadCall ∧
  from_dict (JObj (("color", JStr "red") ::
                   match to_dict Example.python with JObj d => d | _ => [] end)) = BadCall.
Proof.
  split.
  - apply (proj1 (from_dict_checks_keys _ "category" Example.python));
      [|reflexivity].
    apply (bool_decide_unpack _). vm_compute. exact I.
  - apply (proj1 (proj2 (from_dict_checks_keys _ "color" Example.python)));
      [|reflexivity].
    apply (bool_decide_unpack _). vm_compute. exact I.
Defined.

(** ** The file backend: adding, saving, restarting *)

Section FileMore.
Import JSONBackend.
Implicit Types (h : Heap) (self : JSONBackend.t).

Lemma values_app h (l k : list mref) : values h (l ++ k) = values h l ++ values h k.
Proof. unfold values. apply omap_app. Qed.

Lemma values_singleton h (r : mref) (m : Memory) :
  objs h !! r = Some m → values h [r] = [m].
Proof. intros Hm. unfold values. simpl. by rewrite Hm. Qed.

Lemma add_spec h self (memory : mref) (stored : list mref) :
  lists h !! _memories self = Some stored →
  add h self memory
  = (mkHeap (objs h) (<[_memories self := stored ++ [memory]]> (lists h)),
     mk (Holds (envelope (values h (stored ++ [memory])))) (_memories self)).
Proof.
  intros Hs. unfold add, save, set_list. rewrite (items_lookup _ _ _ Hs).
  f_equal. f_equal. unfold records, items. simpl.
  rewrite list_lookup_insert_eq by (by eapply lookup_lt_Some). done.
Qed.

(** X2.  [add] puts the record at the end of the cached list, in place,
    and rewrites the file with all records: the records before it keep
    their places, and a [load] returns the old records followed by the new
    one. *)
Theorem file_add_appends h self (memory : mref) (stored : list mref) (m : Memory) :
  lists h !! _memories self = Some stored →
  objs h !! memory = Some m →
  ∃ h1 self1,
    add h self memory = (h1, self1) ∧
    _memories self1 = _memories self ∧
    items h1 (_memories self) = stored ++ [memory] ∧
    objs h1 = objs h ∧
    memory_file self1 = Holds (envelope (records h (_memories self) ++ [m])) ∧
    ∃ r h2, load h1 self1 = (Returns r, h2, self1) ∧
            records h2 r = records h (_memories self) ++ [m].
Proof.
  intros Hs Hm. rewrite (add_spec _ _ _ _ Hs). eexists _, _. split; [reflexivity|].
  assert (values h (stored ++ [memory]) = records h (_memories self) ++ [m]) as Hv.
  { unfold records. rewrite (items_lookup _ _ _ Hs), values_app.
    by rewrite (values_singleton _ _ _ Hm). }
  simpl. split; [done|]. split.
  { unfold items. simpl.
    by rewrite list_lookup_insert_eq by (by eapply lookup_lt_Some). }
  split; [done|]. rewrite Hv. split; [done|].
  eapply load_envelope_decodes with
    (data := map to_dict (records h (_memories self) ++ [m])); [reflexivity..|].
  apply decode_all_to_dict.
Qed.

Lemma file_add_appends_witness :
  let extra := mkMemory "77aa00bb11cc" "Likes tea" "semantic" "t9" "t9" [] in
  let h := mkHeap (objs Example.heap ++ [extra]) (lists Example.heap) in
  ∃ h1 self1,
    add h Example.file 3%nat = (h1, self1) ∧
    _memories self1 = _memories Example.file ∧
    items h1 (_memories Example.file) = [0; 1; 2]%nat ++ [3%nat] ∧
    objs h1 = objs h ∧
    memory_file self1
    = Holds (envelope (records h (_memories Example.file) ++ [extra])) ∧
    ∃ r h2, load h1 self1 = (Returns r, h2, self1) ∧
            records h2 r = records h (_memories Example.file) ++ [extra].
Proof.
  intros extra h.
  apply (file_add_appends h Example.file 3%nat [0; 1; 2]%nat extra); reflexivity.
Defined.

(** X3.  [save] keeps the very list it is given as the cache.  When the
    caller afterwards changes that list, the backend lists the changed
    content, while the file still holds the records that were saved. *)
Theorem save_keeps_the_callers_list h self (memories : lref)
    (stored changed : list mref) :
  lists h !! memories = Some stored →
  ∃ h1 self1,
    save h self memories = (h1, self1) ∧
    _memories self1 = memories ∧
    memory_file self1 = Holds (envelope (values h stored)) ∧
    ∃ r h2,
      get_all (set_list h1 memories changed) self1 0 None = (r, h2) ∧
      items h2 r = changed.
Proof.
  intros Hs. unfold save. eexists _, _. split; [reflexivity|]. simpl.
  split; [done|]. split.
  { unfold records. by rewrite (items_lookup _ _ _ Hs). }
  pose proof (get_all_items (set_list h memories changed)
                (mk (Holds (envelope (records h memories))) memories) 0 None) as Hi.
  destruct (get_all _ _ 0 None) as [r h2]. exists r, h2. split; [done|].
  cbn [fst snd] in Hi. rewrite Hi. simpl.
  unfold slice_from. simpl. rewrite drop_0. unfold items, set_list. simpl.
  by rewrite list_lookup_insert_eq by (by eapply lookup_lt_Some).
Qed.

Lemma save_keeps_the_callers_list_witness :
  ∃ h1 self1,
    save Example.heap Example.file 0%nat = (h1, self1) ∧
    _memories self1 = 0%nat ∧
    memory_file self1 = Holds (envelope (values Example.heap [0; 1; 2]%nat)) ∧
    ∃ r h2,
      get_all (set_list h1 0%nat [2%nat]) self1 0 None = (r, h2) ∧
      items h2 r = [2%nat].
Proof.
  apply (save_keeps_the_callers_list Example.heap Example.file 0%nat
           [0; 1; 2]%nat [2%nat]). reflexivity.
Defined.
End FileMore.

(** ** The file backend: categories *)

Section FileCategories.
Import JSONBackend.
Implicit Types (h : Heap) (self : JSONBackend.t).

Lemma filter_length_partition {A : Type} (p q s : A → bool) (l : list A) :
  Forall (λ x, (p x && negb (q x) && negb (s x))
               || (negb (p x) && q x && negb (s x))
               || (negb (p x) && negb (q x) && s x) = true) l →
  (length (List.filter p l) + length (List.filter q l) + length (List.filter s l)
   = length l)%nat.
Proof.
  induction 1 as [|x l Hx _ IH]; simpl; [done|].
  destruct (p x), (q x), (s x); simpl in *; try done; lia.
Qed.

(** X4.  [get_by_category] returns, in the order of the store, exactly the
    stored records of that category.  When every stored record has one of
    the three categories, the three lists together have as many records as
    the store. *)
Theorem file_get_by_category_partitions h self (c : string) :
  (∀ r, r ∈ get_by_category h self c ↔
        r ∈ items h (_memories self) ∧
        ∃ m, objs h !! r = Some m ∧ category m = c) ∧
  get_by_category h self c `sublist_of` items h (_memories self) ∧
  (Forall (λ r, ∃ m, objs h !! r = Some m ∧ category m ∈ categories)
     (items h (_memories self)) →
   (length (get_by_category h self "semantic")
    + length (get_by_category h self "episodic")
    + length (get_by_category h self "procedural")
    = length (items h (_memories self)))%nat).
Proof.
  split; [|split].
  - intros r. unfold get_by_category. rewrite elem_of_List_filter, keep_true.
    unfold has_category. split.
    + intros (Hi & m & Hm & Hc%bool_decide_eq_true). eauto.
    + intros (Hi & m & Hm & Hc). split; [done|]. exists m.
      split; [done|]. by apply bool_decide_eq_true.
  - apply filter_sublist.
  - intros Hall. unfold get_by_category. apply filter_length_partition.
    eapply Forall_impl; [exact Hall|]. intros r (m & Hm & Hc). simpl in Hc.
    unfold keep. rewrite Hm. unfold has_category, categories in *.
    apply elem_of_cons in Hc as [->|Hc]; [done|].
    apply elem_of_cons in Hc as [->|Hc]; [done|].
    apply elem_of_cons in Hc as [->|Hc]; [done|].
    by apply elem_of_nil in Hc.
Qed.

Lemma file_get_by_category_partitions_witness :
  (length (get_by_category Example.heap Example.file "semantic")
   + length (get_by_category Example.heap Example.file "episodic")
   + length (get_by_category Example.heap Example.file "procedural")
   = length (items Example.heap (_memories Example.file)))%nat.
Proof.
  apply (file_get_by_category_partitions Example.heap Example.file "semantic").
  repeat constructor; eexists; (split; [reflexivity|]);
    apply (bool_decide_unpack _); vm_compute; exact I.
Defined.
End FileCategories.

(** ** The file backend: construction *)

Section FileInit.
Import JSONBackend.
Implicit Types (h : Heap) (self : JSONBackend.t).

Lemma init_spec h (f : file_state) (r : lref) (h1 : Heap) (self1 : JSONBackend.t) :
  load (new_list h []).2 (mk (_ensure_storage f) (new_list h []).1)
    = (Returns r, h1, self1) →
  init h f = (Returns (mk (memory_file self1) r), h1).
Proof.
  intros Hl. unfold init. destruct (new_list h []) as [r0 h0]. simpl in Hl.
  by rewrite Hl.
Qed.

Lemma init_envelope h (ms : list Memory) :
  ∃ self h1, init h (Holds (envelope ms)) = (Returns self, h1) ∧
             memory_file self = Holds (envelope ms) ∧
             records h1 (_memories self) = ms.
Proof.
  destruct (load_envelope_decodes (new_list h []).2
              (mk (Holds (envelope ms)) (new_list h []).1)
              _ (map to_dict ms) ms eq_refl eq_refl eq_refl
              (decode_all_to_dict ms)) as (r & h1 & Hl & Hr).
  eexists _, h1. split; [by apply init_spec|]. done.
Qed.



(** X6.  After a [save], an [add] or a [delete] that found its record, the
    file holds the envelope of the cached records, and a backend
    constructed anew over that file starts with the same records. *)
Theorem file_restart_keeps_records h self (memories : lref) (memory : mref)
    (k : string) :
  let restarts (st : Heap * JSONBackend.t) :=
    ∃ self2 h2,
      init st.1 (memory_file st.2) = (Returns self2, h2) ∧
      records h2 (_memories self2) = records st.1 (_memories st.2) in
  restarts (save h self memories) ∧
  (is_Some (lists h !! _memories self) → restarts (add h self memory)) ∧
  (k ∈ id <$> records h (_memories self) →
   ∃ h1 self1, delete h self k = (true, h1, self1) ∧ restarts (h1, self1)).
Proof.
  intros restarts.
  assert (∀ h0 self0,
    memory_file self0 = Holds (envelope (records h0 (_memories self0))) →
    restarts (h0, self0)) as Hsync.
  { intros h0 self0 Hf. unfold restarts. simpl. rewrite Hf.
    destruct (init_envelope h0 (records h0 (_memories self0)))
      as (self2 & h2 & Hi & _ & Hr). by exists self2, h2. }
  split; [|split].
  - by apply Hsync.
  - intros [stored Hs]. rewrite (add_spec _ _ _ _ Hs). apply Hsync. simpl.
    unfold records, items. simpl.
    by rewrite list_lookup_insert_eq by (by eapply lookup_lt_Some).
  - intros Hk. unfold delete.
    destruct (first_index (has_id h k) (items h (_memories self))) as [i|] eqn:E.
    + eexists _, _. split; [reflexivity|]. by apply Hsync.
    + exfalso. clear -Hk E. unfold records, values in Hk.
      induction (items h (_memories self)) as [|r l IH]; simpl in *.
      { by apply elem_of_nil in Hk. }
      destruct (has_id h k r) eqn:Hr; [done|].
      destruct (first_index (has_id h k) l); [done|].
      destruct (objs h !! r) as [m|] eqn:Hm; simpl in Hk; [|by apply IH].
      apply elem_of_cons in Hk as [->|Hk]; [|by apply IH].
      unfold has_id in Hr. rewrite Hm in Hr.
      by rewrite bool_decide_eq_true_2 in Hr.
Qed.

Lemma file_restart_keeps_records_witness :
  ∃ h1 self1,
    delete Example.heap Example.file "5f0c2a9d13e7" = (true, h1, self1) ∧
    ∃ self2 h2,
      init h1 (memory_file self1) = (Returns self2, h2) ∧
      records h2 (_memories self2) = records h1 (_memories self1).
Proof.
  apply (file_restart_keeps_records Example.heap Example.file 0%nat 0%nat
           "5f0c2a9d13e7").
  apply (bool_decide_unpack _). vm_compute. exact I.
Defined.
End FileInit.

(** ** The file backend: edges of search and pagination *)

Section FileEdges.
Import JSONBackend.
Implicit Types (h : Heap) (self : JSONBackend.t).

Lemma startswith_empty (s : string) : Str.startswith s EmptyString = true.
Proof. by destruct s. Qed.

Lemma contains_empty (s : string) : Str.contains s EmptyString = true.
Proof. destruct s; simpl; by rewrite ?startswith_empty. Qed.

Lemma lower_char_idem (c : ascii) : Str.lower_char (Str.lower_char c) = Str.lower_char c.
Proof. by destruct c as [[] [] [] [] [] [] [] []]. Qed.

Lemma lower_idem (s : string) : Str.lower (Str.lower s) = Str.lower s.
Proof. induction s as [|c s IH]; simpl; [done|]. by rewrite lower_char_idem, IH. Qed.

Lemma filter_all {A : Type} (p : A → bool) (l : list A) :
  Forall (λ x, p x = true) l → List.filter p l = l.
Proof. induction 1 as [|x l Hx _ IH]; simpl; [done|]. by rewrite Hx, IH. Qed.

(** X7.  A search with limit 0 returns nothing.  Lower-casing the query
    changes nothing.  The empty query is contained in every content: with
    no category and a limit that is not negative, the search returns the
    first records of the store, as many as the limit allows. *)
Theorem file_search_edges h self (query : string) (wanted : option string) (limit : Z) :
  search h self query wanted 0 = [] ∧
  search h self (Str.lower query) wanted limit = search h self query wanted limit ∧
  (0 ≤ limit →
   Forall (λ r, is_Some (objs h !! r)) (items h (_memories self)) →
   search h self EmptyString None limit
   = take (Z.to_nat limit) (items h (_memories self))).
Proof.
  split; [|split].
  - unfold search, slice_to. simpl. apply take_0.
  - unfold search. by rewrite lower_idem.
  - intros Hl Hv. unfold search. rewrite slice_to_nonneg by done. f_equal.
    apply filter_all. eapply Forall_impl; [exact Hv|].
    intros r [m Hm]. unfold keep, matches. rewrite Hm. simpl.
    apply contains_empty.
Qed.

Lemma file_search_edges_witness :
  search Example.heap Example.file EmptyString None 2
  = take (Z.to_nat 2) (items Example.heap (_memories Example.file)).
Proof.
  apply (file_search_edges Example.heap Example.file EmptyString None 2); [lia|].
  repeat constructor; eexists; reflexivity.
Defined.

Lemma page_spec h self (offset : Z) (limit : option Z) :
  page h self offset limit
  = let rest := slice_from (items h (_memories self)) offset in
    match limit with Some l => slice_to rest l | None => rest end.
Proof. apply get_all_items. Qed.

(** X8.  [get_all()] lists the whole store.  An offset at or beyond the
    end gives an empty list, whatever the limit.  A negative offset counts
    from the end: [get_all(-n)] lists the last [n] records; and a negative
    limit cuts at the end: [get_all(0, -n)] lists all but the last [n]. *)
Theorem file_get_all_edges h self (offset : Z) (limit : option Z) (n : nat) :
  let stored := items h (_memories self) in
  page h self 0 None = stored ∧
  (Z.of_nat (length stored) ≤ offset →
   0 ≤ default 0 limit →
   page h self offset limit = []) ∧
  ((0 < n ≤ length stored)%nat →
   page h self (- Z.of_nat n) None = drop (length stored - n) stored ∧
   page h self 0 (Some (- Z.of_nat n)) = take (length stored - n) stored).
Proof.
  intros stored. rewrite !page_spec. fold stored. split; [|split].
  - apply slice_from_0.
  - intros Ho Hl. cbn zeta. rewrite slice_from_nonneg by lia.
    rewrite drop_ge by lia. destruct limit as [l|]; [|done].
    simpl in Hl. rewrite slice_to_nonneg by done. apply take_nil.
  - intros Hn. cbn zeta. split.
    + unfold slice_from.
      destruct (Z.ltb_spec (- Z.of_nat n) 0) as [_|?]; [|lia]. f_equal. lia.
    + rewrite slice_from_0. unfold slice_to.
      destruct (Z.ltb_spec (- Z.of_nat n) 0) as [_|?]; [|lia]. f_equal. lia.
Qed.

Lemma file_get_all_edges_witness :
  page Example.heap Example.file 3 (Some 2) = [] ∧
  page Example.heap Example.file (- Z.of_nat 1) None = [2%nat] ∧
  page Example.heap Example.file 0 (Some (- Z.of_nat 1)) = [0; 1]%nat.
Proof.
  destruct (file_get_all_edges Example.heap Example.file 3 (Some 2) 1)
    as (_ & Hend & Hneg).
  split; [apply Hend; simpl; lia|]. apply Hneg. simpl. lia.
Defined.
End FileEdges.

(** ** The graph backend: adding and finding *)

Section GraphAdd.
Context {G : Type} `{!GraphPort G}.
Import GraphBackend.
Implicit Types (h : Heap) (g : G) (self : GraphBackend.t G).

Lemma dict_get_set_eq {V : Type} (k : string) (v : V) (d : list (string * V)) :
  dict_get k (dict_set k v d) = Some v.
Proof.
  induction d as [|[k0 v0] d IH]; simpl.
  - by rewrite decide_True.
  - destruct (decide (k0 = k)) as [->|Hn]; simpl.
    + by rewrite decide_True.
    + by rewrite decide_False.
Qed.

Lemma dict_set_present {V : Type} (k : string) (v : V) (d : list (string * V)) :
  k ∈ d.*1 → (dict_set k v d).*1 = d.*1.
Proof.
  induction d as [|[k0 v0] d IH]; simpl; [by intros ?%elem_of_nil|].
  destruct (decide (k0 = k)) as [->|Hn]; simpl; [done|].
  intros [?|Hk]%elem_of_cons; [congruence|]. f_equal. by apply IH.
Qed.

(** X9.  [add] keeps one record per id.  A record with a new id goes to
    the end of the cache; a record whose id is cached already takes the
    place of the cached one, and the ids of the store and their order stay
    as they were.  Either way the record is the one found under its id,
    and the records under the other ids are untouched. *)
Theorem graph_add_upserts h self (memory : mref) (m : Memory) :
  objs h !! memory = Some m →
  is_Some (steps_of m) →
  ∃ self1,
    add h self memory = Returns self1 ∧
    dict_get (id m) (_memories_cache self1) = Some memory ∧
    (∀ k, k ≠ id m →
          dict_get k (_memories_cache self1) = dict_get k (_memories_cache self)) ∧
    (id m ∈ (_memories_cache self).*1 →
     (_memories_cache self1).*1 = (_memories_cache self).*1) ∧
    (id m ∉ (_memories_cache self).*1 →
     _memories_cache self1 = _memories_cache self ++ [(id m, memory)]).
Proof.
  intros Hm [steps Hs]. unfold add, add_record. rewrite Hm, Hs.
  eexists. split; [reflexivity|]. simpl. split; [apply dict_get_set_eq|].
  split; [intros k Hk; by apply dict_get_set_ne|].
  split; [apply dict_set_present|apply dict_set_fresh].
Qed.

(** What [find_related] returns is cached. *)
Lemma find_related_cached self (query : string) (depth : Z) (r : mref) :
  r ∈ find_related self query depth → r ∈ dict_values (_memories_cache self).
Proof.
  intros (mid & _ & Hg)%elem_of_find_related. unfold dict_values.
  induction (_memories_cache self) as [|[k v] d IH]; simpl in *; [done|].
  destruct (decide (k = mid)); [injection Hg as ->; by left|right; auto].
Qed.

Lemma dict_get_elem {V : Type} (k : string) (v : V) (d : list (string * V)) :
  dict_get k d = Some v → (k, v) ∈ d.
Proof.
  induction d as [|[k0 v0] d IH]; simpl; [done|].
  destruct (decide (k0 = k)) as [->|]; [intros [= ->]; by left|right; auto].
Qed.

Lemma cache_ok_id h (cache : list (string * mref)) (k : string) (r : mref) :
  cache_ok h cache → (k, r) ∈ cache → ∃ m, objs h !! r = Some m ∧ id m = k.
Proof.
  intros [_ Hf] Hi. rewrite Forall_forall in Hf. apply (Hf (k, r) Hi).
Qed.

Lemma dict_del_sub {V : Type} (k : string) (d : list (string * V)) (x : string * V) :
  x ∈ dict_del k d → x ∈ d.
Proof.
  induction d as [|[k0 v0] d IH]; simpl; [done|].
  destruct (decide (k0 = k)); [by right|].
  intros [->|Hx]%elem_of_cons; [by left|right; auto].
Qed.

Lemma NoDup_omap_inj {A B : Type} (f : A → option B) (l : list A) :
  (∀ x y z, x ∈ l → y ∈ l → f x = Some z → f y = Some z → x = y) →
  NoDup l → NoDup (omap f l).
Proof.
  intros Hinj Hn. induction Hn as [|x l Hx Hn IH]; simpl; [constructor|].
  assert (NoDup (omap f l)) as Hl.
  { apply IH. intros a b z Ha Hb. apply Hinj; by right. }
  destruct (f x) as [z|] eqn:E; [|done].
  constructor; [|done].
  intros (y & Hy & Hfy)%list_elem_of_omap.
  assert (x = y) as -> by (apply (Hinj x y z); [by left|by right|done..]).
  done.
Qed.

(** X11.  [find_related] returns cached records only, and under a cache
    that keeps each record under its id it returns no record twice.  Once
    [delete] has removed a record, no query at any depth returns it,
    although its edges stay in the graph. *)
Theorem find_related_never_returns_deleted h self (k : string) (r : mref)
    (query : string) (depth : Z) :
  cache_ok h (_memories_cache self) →
  dict_get k (_memories_cache self) = Some r →
  (∀ found, found ∈ find_related self query depth →
            found ∈ dict_values (_memories_cache self)) ∧
  NoDup (find_related self query depth) ∧
  (delete h self k).1 = true ∧
  r ∉ find_related (delete h self k).2 query depth.
Proof.
  intros Hok Hg. split; [|split; [|split]].
  - intros found. apply find_related_cached.
  - unfold find_related. apply NoDup_omap_inj; [|apply NoDup_elements].
    intros k1 k2 r' _ _ H1 H2.
    apply dict_get_elem, (cache_ok_id h _ _ _ Hok) in H1 as (m1 & Hm1 & <-).
    apply dict_get_elem, (cache_ok_id h _ _ _ Hok) in H2 as (m2 & Hm2 & <-).
    congruence.
  - unfold delete. by rewrite Hg.
  - unfold delete. rewrite Hg. simpl.
    intros (mid & _ & Hd)%elem_of_find_related. simpl in Hd.
    pose proof (dict_get_elem _ _ _ Hd) as Hi.
    assert (mid ∈ (dict_del k (_memories_cache self)).*1) as Hmid.
    { apply list_elem_of_fmap. by exists (mid, r). }
    apply dict_del_sub in Hi.
    apply (cache_ok_id h _ _ _ Hok) in Hi as (m1 & Hm1 & Hid1).
    apply dict_get_elem, (cache_ok_id h _ _ _ Hok) in Hg as (m2 & Hm2 & Hid2).
    assert (mid = k) as -> by congruence.
    by apply (cache_del_gone k (_memories_cache self)) in Hmid; [|apply Hok].
Qed.
End GraphAdd.

Lemma graph_add_upserts_witness :
  ∃ self1,
    GraphBackend.add Orphan.heap Orphan.two 1%nat = Returns self1 ∧
    dict_get "6f7e8d9c0b1a" (GraphBackend._memories_cache self1) = Some 1%nat ∧
    (GraphBackend._memories_cache self1).*1 = (GraphBackend._memories_cache Orphan.two).*1.
Proof.
  destruct (graph_add_upserts Orphan.heap Orphan.two 1%nat Orphan.rust)
    as (self1 & Ha & Hg & _ & Hk & _); [reflexivity|by eexists|].
  exists self1. split; [done|]. split; [done|]. apply Hk.
  apply (bool_decide_unpack _). vm_compute. exact I.
Defined.


Lemma find_related_never_returns_deleted_witness :
  (GraphBackend.delete Orphan.heap Orphan.two "0a1b2c3d4e5f").1 = true ∧
  0%nat ∉ GraphBackend.find_related
            (GraphBackend.delete Orphan.heap Orphan.two "0a1b2c3d4e5f").2 "Rust" 2.
Proof.
  destruct (find_related_never_returns_deleted Orphan.heap Orphan.two
              "0a1b2c3d4e5f" 0%nat "Rust" 2) as (_ & _ & Hd & Hn).
  - split.
    + apply (bool_decide_unpack _). vm_compute. exact I.
    + repeat constructor; eexists; (split; [reflexivity|reflexivity]).
  - reflexivity.
  - by split.
Defined.

(** ** The graph backend: what is added can be found *)

Section GraphFinds.
Context {G : Type} `{!GraphPort G}.
Import GraphBackend.
Implicit Types (h : Heap) (g : G) (self : GraphBackend.t G).

(** The engine shows an edge once it has been put, and goes on showing it
    when further facts are put. *)
Hypothesis put_shows : ∀ g (s p o : string), s ∈ Port.inc_all (Port.put g s p o) o p.
Hypothesis put_keeps : ∀ g (s p o s' p' o' : string),
  s ∈ Port.inc_all g o p → s ∈ Port.inc_all (Port.put g s' p' o') o p.

Lemma link_entity_keeps g (node ent node' e' : string) :
  node ∈ Port.inc_all g ent "MENTIONS" →
  node ∈ Port.inc_all (link_entity node' g e') ent "MENTIONS".
Proof. intros Hi. unfold link_entity. by do 3 apply put_keeps. Qed.

Lemma link_entities_put g (node e : string) (l : list string) :
  e ∈ l →
  node ∈ Port.inc_all (foldl (link_entity node) g l)
           (entity_node (Str.lower e)) "MENTIONS".
Proof.
  revert g. induction l as [|e' l IH]; intros g; [by intros ?%elem_of_nil|].
  simpl. intros [->|He]%elem_of_cons; [|by apply IH].
  assert (∀ g', node ∈ Port.inc_all g' (entity_node (Str.lower e')) "MENTIONS" →
                node ∈ Port.inc_all (foldl (link_entity node) g' l)
                         (entity_node (Str.lower e')) "MENTIONS") as Hk.
  { clear IH. induction l as [|e2 l IH]; intros g' Hg'; simpl; [done|].
    apply IH. by apply link_entity_keeps. }
  apply Hk. unfold link_entity. apply put_shows.
Qed.

Lemma link_steps_keep (memory_id node n ent : string) (l : list (nat * string)) : ∀ g,
  n ∈ Port.inc_all g ent "MENTIONS" →
  n ∈ Port.inc_all (foldl (link_step memory_id node) g l) ent "MENTIONS".
Proof.
  induction l as [|st l IH]; intros g Hg; simpl; [done|].
  apply IH. unfold link_step. by do 4 apply put_keeps.
Qed.

Lemma graph_facts_mention g (m : Memory) (steps : list string) (e : string) :
  e ∈ _extract_entities (content m) →
  memory_node (id m) ∈ Port.inc_all (graph_facts g m steps)
                         (entity_node (Str.lower e)) "MENTIONS".
Proof.
  intros He. unfold graph_facts. cbn zeta. apply link_steps_keep.
  destruct (has_category "episodic" m); [apply put_keeps|];
    by apply link_entities_put.
Qed.

(** X10.  After [add], the record is found under every entity of its
    content: [find_related] at any depth returns it for a query that is,
    in lower case, the entity in lower case.  The engine is one that shows
    an edge once put; the id does not hold the text [memory:], which
    [find_related] strips from node names. *)
Theorem add_then_find_related h self (memory : mref) (m : Memory)
    (entity query : string) (depth : Z) :
  objs h !! memory = Some m →
  is_Some (steps_of m) →
  Str.contains (id m) "memory:" = false →
  entity ∈ _extract_entities (content m) →
  Str.lower query = Str.lower entity →
  ∃ self1,
    add h self memory = Returns self1 ∧
    memory ∈ find_related self1 query depth.
Proof.
  intros Hm [steps Hs] Hid He Hq. unfold add, add_record. rewrite Hm, Hs.
  eexists. split; [reflexivity|].
  apply elem_of_find_related. exists (id m). simpl.
  split; [|apply dict_get_set_eq].
  assert (id m ∈ direct_ids (graph_facts (_graph self) m steps) query) as Hd.
  { apply elem_of_direct_ids. exists (memory_node (id m)).
    split; [|by rewrite id_of_memory_node].
    split; [apply startswith_append|]. rewrite Hq. by apply graph_facts_mention. }
  unfold related_ids. destruct (1 <? depth); [|done].
  by apply elem_of_union_l.
Qed.
End GraphFinds.

Section TripleStoreFacts.
Implicit Types (g : TripleStore.t).

Lemma triple_inc_all g (s p o : string) :
  s ∈ TripleStore.inc_all g o p ↔ (s, p, o) ∈ g.
Proof.
  unfold TripleStore.inc_all. rewrite list_elem_of_In, in_map_iff. split.
  - intros ([[s' p'] o'] & <- & [Hi Hb]%filter_In). simpl in *.
    apply andb_true_iff in Hb as [->%bool_decide_eq_true ->%bool_decide_eq_true].
    by apply list_elem_of_In.
  - intros Hi%list_elem_of_In. exists (s, p, o). split; [done|].
    apply filter_In. split; [done|]. simpl. by rewrite !bool_decide_eq_true_2.
Qed.

Lemma triple_put g (s p o : string) (x : TripleStore.triple) :
  x ∈ TripleStore.put g s p o ↔ x ∈ g ∨ x = (s, p, o).
Proof.
  unfold TripleStore.put. destruct (bool_decide_reflect ((s, p, o) ∈ g)) as [Hi|Hn].
  - split; [by left|]. by intros [?| ->].
  - rewrite elem_of_app, list_elem_of_singleton. done.
Qed.

Lemma triple_put_shows g (s p o : string) :
  s ∈ Port.inc_all (Port.put g s p o) o p.
Proof. apply triple_inc_all, triple_put. by right. Qed.

Lemma triple_put_keeps g (s p o s' p' o' : string) :
  s ∈ Port.inc_all g o p → s ∈ Port.inc_all (Port.put g s' p' o') o p.
Proof. intros Hi%triple_inc_all. apply triple_inc_all, triple_put. by left. Qed.
End TripleStoreFacts.

Lemma add_then_find_related_witness :
  ∃ self1,
    GraphBackend.add Orphan.heap Orphan.empty 0%nat = Returns self1 ∧
    0%nat ∈ GraphBackend.find_related self1 "PYTHON" 1.
Proof.
  apply (add_then_find_related triple_put_shows triple_put_keeps
           Orphan.heap Orphan.empty 0%nat Orphan.both "Python" "PYTHON" 1).
  - reflexivity.
  - by eexists.
  - reflexivity.
  - apply (bool_decide_unpack _). vm_compute. exact I.
  - reflexivity.
Defined.

(** ** Sorting by descending key *)

Section SortedDesc.
Context {A : Type} (key : A → string).








End SortedDesc.

(** ** The facade: recent episodes *)

Section Recent.
Context {G : Type} `{!GraphPort G}.
Implicit Types (h : Heap) (self : @MemoryStore.t G).

End Recent.


(** ** The facade: procedures by name *)

Section Procedures.
Context {G : Type} `{!GraphPort G}.
Implicit Types (h : Heap) (self : @MemoryStore.t G).



Lemma get_procedure_spec h self (name : string) :
  (MemoryStore.get_procedure h self name).1
  = List.find (JSONBackend.keep h (MemoryStore.is_procedure name))
      (stored h (MemoryStore._backend self)).
Proof.
  unfold MemoryStore.get_procedure. rewrite memories_spec. simpl.
  unfold items. simpl. rewrite lookup_app_r by lia. rewrite Nat.sub_diag. simpl.
  done.
Qed.


End Procedures.


(** ** The graph backend: the neighbourhood of an entity *)

Section EntityGraph.
Context {G : Type} `{!GraphPort G}.
Import GraphBackend.
Implicit Types (g : G) (self : GraphBackend.t G).

Lemma elem_of_cached_ids self (ids : list string) (r : mref) :
  r ∈ omap (λ mid, dict_get mid (_memories_cache self))
        (List.filter (λ mid, dict_has mid (_memories_cache self)) ids) ↔
  ∃ mid, mid ∈ ids ∧ dict_get mid (_memories_cache self) = Some r.
Proof.
  rewrite list_elem_of_omap. split.
  - intros (mid & [Hi _]%elem_of_List_filter & Hg). by exists mid.
  - intros (mid & Hi & Hg). exists mid. split; [|done].
    apply elem_of_List_filter. split; [done|]. unfold dict_has. by rewrite Hg.
Qed.

(** X14.  The memories [get_entity_graph] lists for an entity are those
    [find_related] returns for it at depth 1.  The related entities hold
    no name twice and never the entity asked for; they are the names read
    off the entity nodes that the listed memories mention. *)
Theorem entity_graph_neighbourhood self (entity : string) :
  let memories := fst (get_entity_graph self entity) in
  let related := snd (get_entity_graph self entity) in
  (∀ r, r ∈ memories ↔ r ∈ find_related self entity 1) ∧
  NoDup related ∧
  (Str.lower entity ∉ related) ∧
  (∀ name, name ∈ related ↔
     name ≠ Str.lower entity ∧
     ∃ mid ent,
       mid ∈ direct_ids (_graph self) entity ∧
       is_Some (dict_get mid (_memories_cache self)) ∧
       ent ∈ Port.out_all (_graph self) (memory_node mid) "MENTIONS" ∧
       Str.startswith ent "entity:" = true ∧
       name = Str.remove "entity:" ent).
Proof.
  intros memories related.
  assert (∀ name, name ∈ related ↔
     name ≠ Str.lower entity ∧
     ∃ mid ent,
       mid ∈ direct_ids (_graph self) entity ∧
       is_Some (dict_get mid (_memories_cache self)) ∧
       ent ∈ Port.out_all (_graph self) (memory_node mid) "MENTIONS" ∧
       Str.startswith ent "entity:" = true ∧
       name = Str.remove "entity:" ent) as Hrel.
  { intros name. unfold related, get_entity_graph. cbn [snd].
    rewrite elem_of_elements, elem_of_list_to_set, list_elem_of_In, in_concat.
    unfold direct_ids. setoid_rewrite elem_of_list_to_set. split.
    - intros (names & (mid & <- & Hmid)%in_map_iff & Hn).
      apply list_elem_of_In, elem_of_List_filter in Hmid as [Hmid Hc].
      unfold co_mentioned in Hn.
      apply filter_In in Hn as [Hn Hne].
      apply in_map_iff in Hn as (ent & <- & [He Hs]%filter_In).
      apply negb_true_iff, bool_decide_eq_false in Hne.
      split; [done|]. exists mid, ent. split; [done|].
      split; [|by split; [apply list_elem_of_In|]].
      unfold dict_has in Hc. by destruct (dict_get mid (_memories_cache self)).
    - intros (Hne & mid & ent & Hmid & [r Hr] & He & Hs & ->).
      exists (co_mentioned (_graph self) (Str.lower entity) mid). split.
      + apply in_map_iff. exists mid. split; [done|].
        apply list_elem_of_In, elem_of_List_filter. split; [done|].
        unfold dict_has. by rewrite Hr.
      + unfold co_mentioned. apply filter_In. split.
        * apply in_map_iff. exists ent. split; [done|]. apply filter_In.
          split; [by apply list_elem_of_In|done].
        * by apply negb_true_iff, bool_decide_eq_false. }
  split; [|split; [|split]].
  - intros r. unfold memories, get_entity_graph. cbn [fst].
    rewrite elem_of_cached_ids, elem_of_find_related.
    unfold related_ids, direct_ids. simpl.
    by setoid_rewrite elem_of_list_to_set.
  - apply NoDup_elements.
  - intros Hin. apply Hrel in Hin as [Hne _]. done.
  - exact Hrel.
Qed.
End EntityGraph.

(** ** The facade: clearing the store *)

Section Clear.
Context {G : Type} `{!GraphPort G}.
Implicit Types (h : Heap) (self : @MemoryStore.t G).

(** X15.  [clear_all] leaves an empty store behind and changes no record:
    afterwards no procedure is found under any name, no episode is recent
    and [find_related] finds nothing.  The file backend has written the
    empty envelope; the graph backend has emptied its cache and left the
    graph of the engine as it was. *)
Theorem clear_all_empties h self :
  ∃ h1 self1,
    MemoryStore.clear_all h self = Returns (h1, self1) ∧
    objs h1 = objs h ∧
    stored h1 (MemoryStore._backend self1) = [] ∧
    (∀ name, (MemoryStore.get_procedure h1 self1 name).1 = None) ∧
    (∀ limit, MemoryStore.get_recent_episodes h1 self1 limit = []) ∧
    (∀ query depth, MemoryStore.find_related h1 self1 query depth = []) ∧
    match MemoryStore._backend self, MemoryStore._backend self1 with
    | MemoryStore.Json _, MemoryStore.Json j1 =>
        JSONBackend.memory_file j1 = JSONBackend.Holds (JSONBackend.envelope [])
    | MemoryStore.Graph g, MemoryStore.Graph g1 =>
        GraphBackend._graph g1 = GraphBackend._graph g ∧
        GraphBackend._memories_cache g1 = []
    | _, _ => False
    end.
Proof.
  unfold MemoryStore.clear_all, new_list.
  destruct self as [[j|g]]; cbn [MemoryStore._backend MemoryStore.backend_save].
  - unfold JSONBackend.save.
    assert (items (mkHeap (objs h) (lists h ++ [[]])) (length (lists h)) = []) as Hi.
    { unfold items. simpl. rewrite lookup_app_r by lia. by rewrite Nat.sub_diag. }
    eexists _, _. split; [reflexivity|]. split; [done|].
    split; [exact Hi|]. split; [|split; [|split]].
    + intros name. rewrite get_procedure_spec.
      cbn [MemoryStore._backend stored JSONBackend._memories]. by rewrite Hi.
    + intros limit. unfold MemoryStore.get_recent_episodes, MemoryStore.get_by_category.
      cbn [MemoryStore._backend]. unfold JSONBackend.get_by_category.
      cbn [JSONBackend._memories]. rewrite Hi. simpl.
      unfold slice_to. destruct (limit <? 0); apply take_nil.
    + intros query depth. unfold MemoryStore.find_related.
      cbn [MemoryStore._backend]. unfold JSONBackend.search.
      cbn [JSONBackend._memories]. by rewrite Hi.
    + unfold records. by rewrite Hi.
  - unfold GraphBackend.save.
    assert (items (mkHeap (objs h) (lists h ++ [[]])) (length (lists h)) = []) as Hi.
    { unfold items. simpl. rewrite lookup_app_r by lia. by rewrite Nat.sub_diag. }
    rewrite Hi. cbn [GraphBackend.add_each].
    eexists _, _. split; [reflexivity|]. split; [done|]. split; [done|].
    split; [|split; [|split]].
    + intros name. by rewrite get_procedure_spec.
    + intros limit. unfold MemoryStore.get_recent_episodes, MemoryStore.get_by_category.
      simpl. unfold slice_to. destruct (limit <? 0); apply take_nil.
    + intros query depth. unfold MemoryStore.find_related. simpl.
      unfold GraphBackend.find_related. simpl.
      induction (elements _) as [|x l IH]; [done|exact IH].
    + done.
Qed.
End Clear.

(** ** The facade: keywords in the metadata *)

Section Keywords.
Context {G : Type} `{!GraphPort G}.
Implicit Types (h : Heap) (self : @MemoryStore.t G).

Lemma with_kwargs_get (k : string) (metadata : list (string * json)) :
  ∀ entries, NoDup metadata.*1 →
  dict_get k (MemoryStore.with_kwargs entries metadata)
  = match dict_get k metadata with
    | Some v => Some v
    | None => dict_get k entries
    end.
Proof.
  unfold MemoryStore.with_kwargs.
  induction metadata as [|[k0 v0] md IH]; intros entries Hn; simpl; [done|].
  apply NoDup_cons in Hn as [Hk Hn]. rewrite IH by done.
  destruct (decide (k0 = k)) as [->|Hne].
  - apply dict_get_None in Hk. simpl in Hk. rewrite Hk. apply dict_get_set_eq.
  - destruct (dict_get k md); [done|]. by apply dict_get_set_ne.
Qed.

(** X16.  The keywords passed to [add_episode] and [add_procedure] are
    kept in the metadata under their names.  An episode carries the time
    of its creation under [timestamp], and a procedure its name under
    [procedure_name], unless a keyword of that name was passed: the
    keyword then takes the place of the value. *)
Theorem keywords_in_metadata h self (now timestamp text : string)
    (steps : list string) (kwargs : list (string * json)) (k : string) :
  NoDup kwargs.*1 →
  dict_get "steps" kwargs = None →
  ∃ episode procedure,
    created (MemoryStore.add_episode h self now timestamp text kwargs) = Some episode ∧
    created (MemoryStore.add_procedure h self now timestamp text steps kwargs)
      = Some procedure ∧
    created_at episode = now ∧
    dict_get "timestamp" (metadata episode)
      = Some (default (JStr now) (dict_get "timestamp" kwargs)) ∧
    dict_get "procedure_name" (metadata procedure)
      = Some (default (JStr text) (dict_get "procedure_name" kwargs)) ∧
    dict_get "steps" (metadata procedure) = Some (JArr (map JStr steps)) ∧
    (k ≠ "timestamp" →
     dict_get k (metadata episode) = dict_get k kwargs) ∧
    (k ≠ "procedure_name" → k ≠ "steps" →
     dict_get k (metadata procedure) = dict_get k kwargs).
Proof.
  intros Hn Hs. eexists _, _.
  split; [by apply store_new_created|]. split.
  { apply store_new_created. unfold GraphBackend.steps_of. simpl.
    rewrite with_kwargs_get, Hs by done. simpl. rewrite strings_of_strings. done. }
  simpl. rewrite !with_kwargs_get by done. rewrite Hs. simpl.
  split; [done|]. split; [by destruct (dict_get "timestamp" kwargs)|].
  split; [by destruct (dict_get "procedure_name" kwargs)|]. split; [done|].
  split.
  - intros Hk. destruct (dict_get k kwargs); [done|]. by rewrite decide_False.
  - intros Hk1 Hk2. destruct (dict_get k kwargs); [done|].
    by rewrite !decide_False.
Qed.
End Keywords.

Lemma keywords_in_metadata_witness :
  let self : @MemoryStore.t TripleStore.t :=
    MemoryStore.mk (MemoryStore.Json Example.file) in
  ∃ episode procedure,
    created (MemoryStore.add_episode Example.heap self "2024-03-01T12:00:00.000001"
               "2024-03-01T12:00:00.000004" "deploy"
               [("timestamp", JStr "yesterday"); ("procedure_name", JStr "ship")])
      = Some episode ∧
    created (MemoryStore.add_procedure Example.heap self "2024-03-01T12:00:00.000001"
               "2024-03-01T12:00:00.000004" "deploy" ["test"]
               [("timestamp", JStr "yesterday"); ("procedure_name", JStr "ship")])
      = Some procedure ∧
    dict_get "timestamp" (metadata episode) = Some (JStr "yesterday") ∧
    dict_get "procedure_name" (metadata procedure) = Some (JStr "ship").
Proof.
  intros self.
  destruct (keywords_in_metadata Example.heap self "2024-03-01T12:00:00.000001"
              "2024-03-01T12:00:00.000004" "deploy" ["test"]
              [("timestamp", JStr "yesterday"); ("procedure_name", JStr "ship")]
              "timestamp")
    as (episode & procedure & He & Hp & _ & Ht & Hn & _).
  - apply (bool_decide_unpack _). vm_compute. exact I.
  - reflexivity.
  - exists episode, procedure. split; [exact He|]. split; [exact Hp|].
    split; [exact Ht|exact Hn].
Defined.
